(** * mic-speech-sentiment: the listen / analyse / cache component

    A shallow embedding of [src/models/mic_speech_sentiment.py] (class
    [MicSpeechSentiment]) and the properties its specification states about
    it.

    - Python dictionaries are finite maps ([gmap string value]).
    - The instance attributes of [self] form the record [component]; every
      method is a computation in a state-and-exception monad [M] over the
      [World] the method can touch: the component, the asyncio tasks created
      so far, a journal of outward effects (log lines, calls to the two
      services, sleeps) and the number of clock readings taken.
    - The coroutine [_listen_loop] is embedded as a resumable computation: one
      function per kind of resumption, each running the code from one [await]
      to the next one (or to the end of the coroutine). What other tasks do
      while the loop is suspended is whatever happened to the [World] between
      two resumptions.
    - [datetime] values are counts of microseconds since 0001-01-01T00:00:00;
      [timedelta(seconds=n)] and [datetime + timedelta] raise [OverflowError]
      outside the ranges of the library types, as in Python. *)

From Stdlib Require Import ZArith QArith Ascii.
From stdpp Require Import gmap strings list fin_maps pretty.

#[local] Set Warnings "-register-all".
#[local] Open Scope Z_scope.

(** ** Python values *)

(** The values that travel through command maps, configuration attributes and
    service responses ([ValueTypes] / the result of [struct_to_dict]). *)
Inductive value :=
| VNone
| VBool (b : bool)
| VInt (z : Z)
| VNum (q : Q)                      (* a finite float, by its exact value *)
| VStr (s : string)
| VList (l : list value)
| VDict (d : gmap string value).

(** Truth value of an object in a condition ([if x:], [not x]). *)
Definition py_truthy (v : value) : bool :=
  match v with
  | VNone => false
  | VBool b => b
  | VInt z => negb (z =? 0)
  | VNum q => negb (Qeq_bool q 0)
  | VStr s => negb (String.eqb s "")
  | VList l => match l with [] => false | _ => true end
  | VDict d => negb (bool_decide (d = ∅))
  end.

(** [v == s] for a string literal [s]: only an equal string compares equal. *)
Definition py_eq_str (v : value) (s : string) : bool :=
  match v with
  | VStr s' => String.eqb s' s
  | _ => false
  end.

(** [d.get(k)]: [None] when the key is absent. *)
Definition dict_get (d : gmap string value) (k : string) : value :=
  default VNone (d !! k).

(** [d.get(k, dflt)]. *)
Definition dict_get_default (d : gmap string value) (k : string) (dflt : value) : value :=
  default dflt (d !! k).

(** ** [str.strip] *)

(** [str.isspace] on one character, for the code points a [string] of this
    development can hold (0 to 255). *)
Definition py_isspace (a : ascii) : bool :=
  let n := N_of_ascii a in
  ((9 <=? n) && (n <=? 13) || (28 <=? n) && (n <=? 32) || (n =? 133) || (n =? 160))%N.

Fixpoint lstrip (s : string) : string :=
  match s with
  | EmptyString => EmptyString
  | String a s' => if py_isspace a then lstrip s' else s
  end.

Fixpoint rstrip (s : string) : string :=
  match s with
  | EmptyString => EmptyString
  | String a s' =>
      let r := rstrip s' in
      if py_isspace a && String.eqb r "" then EmptyString else String a r
  end.

Definition py_strip (s : string) : string := rstrip (lstrip s).

(** Every character of [s] is white space (true of the empty string). *)
Fixpoint whitespace_only (s : string) : bool :=
  match s with
  | EmptyString => true
  | String a s' => py_isspace a && whitespace_only s'
  end.

(** ** Exceptions *)

Inductive exn_class :=
| ImportError
| KeyError
| ValueError
| TypeError
| AttributeError
| OtherException (name : string)      (* any other subclass of Exception *)
| CancelledError                      (* asyncio.CancelledError *)
| OtherBaseException (name : string). (* KeyboardInterrupt, SystemExit, ... *)

Record exn := { exn_cls : exn_class; exn_msg : string }.

(** What [except Exception] catches. [asyncio.CancelledError] derives from
    [BaseException] only. *)
Definition is_Exception (c : exn_class) : bool :=
  match c with
  | CancelledError | OtherBaseException _ => false
  | _ => true
  end.

Definition is_CancelledError (c : exn_class) : bool :=
  match c with
  | CancelledError => true
  | _ => false
  end.

(** The outcome of a computation that may raise. *)
Inductive result (A : Type) :=
| Ok (a : A)
| Raise (e : exn).
Arguments Ok {A} a.
Arguments Raise {A} e.

(** ** Dates and durations *)

Abbreviation datetime := Z (only parsing).

Definition OverflowError : exn_class := OtherException "OverflowError".

(** The message of the [OverflowError] of a [timedelta] of too many days: the
    library first converts the days to a C [int] (32 bits), which fails with
    a message of its own, and then checks their magnitude. *)
Definition timedelta_message (days : Z) : string :=
  if (-2147483648 <=? days) && (days <=? 2147483647)
  then "days=" +:+ pretty days +:+ "; must have magnitude <= 999999999"
  else "Python int too large to convert to C int".

(** [timedelta(seconds=n)], in microseconds. The library keeps a duration as
    days, seconds and microseconds and refuses more than 999999999 days either
    way: the days of [n] seconds are [n // 86400]. *)
Definition timedelta_seconds (n : Z) : result Z :=
  let days := n / 86400 in
  if (-999999999 <=? days) && (days <=? 999999999) then Ok (n * 1000000)
  else Raise {| exn_cls := OverflowError; exn_msg := timedelta_message days |}.

(** The first instant after [datetime.max] (9999-12-31T23:59:59.999999):
    3652059 days after [datetime.min]. *)
Definition datetime_limit : Z := 3652059 * 86400000000.

(** [t + d] for a [datetime] [t] and a [timedelta] [d]: the sum has to be a
    [datetime] of the years 1 to 9999. *)
Definition datetime_add (t d : Z) : result Z :=
  if (0 <=? t + d) && (t + d <? datetime_limit) then Ok (t + d)
  else Raise {| exn_cls := OverflowError; exn_msg := "date value out of range" |}.

(** ** The component and its world *)

(** A resource handed over by the host (an object, known by its identity). *)
Abbreviation resource := nat (only parsing).

(** The dictionary stored in [self.latest_reading]. *)
Record reading := {
  text_heard : string;
  sentiment : value;
  time : datetime
}.

(** The attributes set by [__init__]. *)
Record component := {
  speech_service : option resource;
  sentiment_service : option resource;
  reading_expiration_seconds : Z;
  latest_reading : option reading;
  listening_task : option nat;
  is_listening : bool
}.

(** [__init__]. *)
Definition init : component :=
  {| speech_service := None;
     sentiment_service := None;
     reading_expiration_seconds := 20;
     latest_reading := None;
     listening_task := None;
     is_listening := false |}.

Inductive level := INFO | ERROR.

(** Outward effects, in the order they happen. *)
Inductive event :=
| ELog (l : level) (msg : string)
| ECallListen (svc : resource)
| ECallDoCommand (svc : resource) (request : gmap string value)
| ESleep (secs : Z).

(** An asyncio task running [_listen_loop]. *)
Record task := { cancel_requested : bool }.

Record World := {
  self : component;
  tasks : list task;       (* every task created so far, by creation order *)
  journal : list event;
  ticks : nat              (* clock readings taken so far *)
}.

Definition fresh_world : World :=
  {| self := init; tasks := []; journal := []; ticks := 0 |}.

(** ** The monad of methods *)

Definition M (A : Type) : Type := World → result A * World.

#[global] Instance M_ret : MRet M := λ A a w, (Ok a, w).
#[global] Instance M_bind : MBind M := λ A B f m w,
  match m w with
  | (Ok a, w') => f a w'
  | (Raise e, w') => (Raise e, w')
  end.

Definition raise {A} (c : exn_class) (msg : string) : M A :=
  λ w, (Raise {| exn_cls := c; exn_msg := msg |}, w).

Definition reraise {A} (e : exn) : M A := λ w, (Raise e, w).

Definition get_self : M component := λ w, (Ok (self w), w).

Definition modify_self (f : component → component) : M unit :=
  λ w, (Ok tt, {| self := f (self w); tasks := tasks w;
                  journal := journal w; ticks := ticks w |}).

Definition emit (e : event) : M unit :=
  λ w, (Ok tt, {| self := self w; tasks := tasks w;
                  journal := journal w ++ [e]; ticks := ticks w |}).

Definition logger_info (msg : string) : M unit := emit (ELog INFO msg).
Definition logger_error (msg : string) : M unit := emit (ELog ERROR msg).

(** Attribute assignments [self.x = v]. *)
Definition with_speech_service (v : option resource) (c : component) : component :=
  {| speech_service := v;
     sentiment_service := sentiment_service c;
     reading_expiration_seconds := reading_expiration_seconds c;
     latest_reading := latest_reading c;
     listening_task := listening_task c;
     is_listening := is_listening c |}.

Definition with_sentiment_service (v : option resource) (c : component) : component :=
  {| speech_service := speech_service c;
     sentiment_service := v;
     reading_expiration_seconds := reading_expiration_seconds c;
     latest_reading := latest_reading c;
     listening_task := listening_task c;
     is_listening := is_listening c |}.

Definition with_reading_expiration_seconds (v : Z) (c : component) : component :=
  {| speech_service := speech_service c;
     sentiment_service := sentiment_service c;
     reading_expiration_seconds := v;
     latest_reading := latest_reading c;
     listening_task := listening_task c;
     is_listening := is_listening c |}.

Definition with_latest_reading (v : option reading) (c : component) : component :=
  {| speech_service := speech_service c;
     sentiment_service := sentiment_service c;
     reading_expiration_seconds := reading_expiration_seconds c;
     latest_reading := v;
     listening_task := listening_task c;
     is_listening := is_listening c |}.

Definition with_listening_task (v : option nat) (c : component) : component :=
  {| speech_service := speech_service c;
     sentiment_service := sentiment_service c;
     reading_expiration_seconds := reading_expiration_seconds c;
     latest_reading := latest_reading c;
     listening_task := v;
     is_listening := is_listening c |}.

Definition with_is_listening (v : bool) (c : component) : component :=
  {| speech_service := speech_service c;
     sentiment_service := sentiment_service c;
     reading_expiration_seconds := reading_expiration_seconds c;
     latest_reading := latest_reading c;
     listening_task := listening_task c;
     is_listening := v |}.

(** [asyncio.create_task(...)]: a new task, not yet run; the result is its
    index in [tasks]. *)
Definition create_task : M nat :=
  λ w, (Ok (length (tasks w)),
        {| self := self w; tasks := tasks w ++ [{| cancel_requested := false |}];
           journal := journal w; ticks := ticks w |}).

(** [task.cancel()]: the request is recorded on the task. *)
Definition cancel_task (t : nat) : M unit :=
  λ w, (Ok tt,
        {| self := self w;
           tasks := alter (λ _, {| cancel_requested := true |}) t (tasks w);
           journal := journal w; ticks := ticks w |}).

(** ** The states of the coroutine [_listen_loop] *)

(** Where the coroutine is suspended. *)
Inductive suspension :=
| AtListen                      (* line 139, [await self.speech_service.listen()] *)
| AtDoCommand (text : string)   (* line 145, [await self.sentiment_service.do_command(...)] *)
| AtSleep (secs : Z).           (* line 165, [await asyncio.sleep(1)] *)

(** The state of the coroutine between two runs. *)
Inductive loop_point :=
| Awaiting (s : suspension)
| Returned.                     (* the coroutine has returned *)

(** What an [await] evaluates to when the coroutine is resumed: the value of
    the awaited call, or an exception raised at the [await] (by the call, or
    [CancelledError] after [task.cancel()]). *)
Inductive outcome (A : Type) :=
| Value (a : A)
| Thrown (e : exn).
Arguments Value {A} a.
Arguments Thrown {A} e.

(** How a run of the coroutine begins. *)
Inductive resumption :=
| Start                                                    (* first run of the task *)
| FromListen (o : outcome string)
| FromDoCommand (text : string) (o : outcome (gmap string value))
| FromSleep (o : outcome unit)
| ThrownAtStart (e : exn).
    (* the first step of a task cancelled before it ran: asyncio throws the
       exception into the coroutine that has not started *)

(** ** What the Python runtime and the host supply *)

Class Host := {
  (** [datetime.isoformat] *)
  isoformat : datetime → string;
  (** the value of the [k]-th evaluation of [datetime.now()] *)
  clock : nat → datetime;
  (** [str(v)] for floats, lists and dictionaries *)
  py_repr : value → string;
  (** [int(s)] for a string [s]; [None] where it raises [ValueError] *)
  parse_int : string → option Z;
  (** whether [from speech_service_api import SpeechService] succeeded *)
  SpeechService_imported : bool
}.

Section Component.
Context `{Host}.

(** [datetime.now()]. *)
Definition now : M datetime :=
  λ w, (Ok (clock (ticks w)),
        {| self := self w; tasks := tasks w;
           journal := journal w; ticks := S (ticks w) |}).

(** [str(v)], as an f-string renders a value. *)
Definition py_str (v : value) : string :=
  match v with
  | VNone => "None"
  | VBool true => "True"
  | VBool false => "False"
  | VInt z => pretty z
  | VStr s => s
  | _ => py_repr v
  end.

(** A raised or returned result taken into a method. *)
Definition from_result {A} (r : result A) : M A := λ w, (r, w).

(** [int(v)]: a float is truncated towards zero. *)
Definition py_int (v : value) : result Z :=
  match v with
  | VBool b => Ok (if b then 1 else 0)
  | VInt z => Ok z
  | VNum q => Ok (Z.quot (Qnum q) (Z.pos (Qden q)))
  | VStr s =>
      match parse_int s with
      | Some z => Ok z
      | None => Raise {| exn_cls := ValueError;
                         exn_msg := "invalid literal for int() with base 10: " +:+ s |}
      end
  | _ => Raise {| exn_cls := TypeError;
                  exn_msg := "int() argument must be a string, a bytes-like object or a real number" |}
  end.

(** [cls.get_resource_name(name)]: the key of a dependency, made of the
    subtype of the API and the name; the name has to be a string. *)
Definition get_resource_name (subtype : string) (name : value) : M (string * string) :=
  match name with
  | VStr s => mret (subtype, s)
  | _ => raise TypeError "bad argument type for built-in operation"
  end.

(** [dependencies[key]]. *)
Definition dependency (dependencies : gmap (string * string) resource)
    (key : string * string) : M resource :=
  match dependencies !! key with
  | Some r => mret r
  | None => raise KeyError (key.2)
  end.

(** *** validate_config (lines 57-82) *)

(** The required and the optional dependencies of a configuration: the
    names it gives, none of them asked for. *)
Definition validate_config (attributes : gmap string value) : list value * list value :=
  let speech_service := dict_get attributes "speech_service" in
  let sentiment_service := dict_get attributes "sentiment_service" in
  let required_deps := [] in
  let required_deps :=
    if py_truthy speech_service then required_deps ++ [speech_service]
    else required_deps in
  let required_deps :=
    if py_truthy sentiment_service then required_deps ++ [sentiment_service]
    else required_deps in
  (required_deps, []).

(** *** start_listening (lines 124-131) *)

Definition start_listening : M unit :=
  c ← get_self;
  if is_listening c then mret tt
  else
    modify_self (with_is_listening true);;
    t ← create_task;
    modify_self (with_listening_task (Some t));;
    logger_info "Started listening for speech and sentiment analysis".

(** *** reconfigure (lines 84-122) *)

Definition reconfigure (attributes : gmap string value)
    (dependencies : gmap (string * string) resource) : M unit :=
  let speech_service_name := dict_get attributes "speech_service" in
  let sentiment_service_name := dict_get attributes "sentiment_service" in
  let reading_expiration_seconds_raw := dict_get attributes "reading_expiration_seconds" in
  n ← match reading_expiration_seconds_raw with
      | VNone => mret 20
      | raw => from_result (py_int raw)
      end;
  modify_self (with_reading_expiration_seconds n);;
  (if py_truthy speech_service_name then
     if SpeechService_imported then
       key ← get_resource_name "speech" speech_service_name;
       speech_service_dep ← dependency dependencies key;
       modify_self (with_speech_service (Some speech_service_dep))
     else raise ImportError "speech_service_api is required. Add 'speech_service_api @ git+https://github.com/viam-labs/speech-service-api.git@main' to requirements.txt"
   else mret tt);;
  (if py_truthy sentiment_service_name then
     key ← get_resource_name "generic" sentiment_service_name;
     sentiment_service_dep ← dependency dependencies key;
     modify_self (with_sentiment_service (Some sentiment_service_dep))
   else mret tt);;
  c ← get_self;
  match speech_service c with
  | None => raise ValueError "speech_service dependency is required"
  | Some _ =>
      match sentiment_service c with
      | None => raise ValueError "sentiment_service dependency is required"
      | Some _ =>
          logger_info ("Configured with speech_service: " +:+ py_str speech_service_name
                       +:+ ", sentiment_service: " +:+ py_str sentiment_service_name
                       +:+ ", reading_expiration_seconds: " +:+ pretty n);;
          c ← get_self;
          if is_listening c then mret tt else start_listening
      end
  end.

(** *** get_readings (lines 174-211) *)

Definition default_reading (t : datetime) (listening : bool) : gmap string value :=
  {[ "text_heard" := VStr "";
     "sentiment" := VStr "None";
     "time" := VStr (isoformat t);
     "is_listening" := VBool listening ]}.

Definition get_readings : M (gmap string value) :=
  c ← get_self;
  match latest_reading c with
  | None =>
      t ← now;
      mret (default_reading t (is_listening c))
  | Some r =>
      let time_heard := time r in
      delta ← from_result (timedelta_seconds (reading_expiration_seconds c));
      expiration_time ← from_result (datetime_add time_heard delta);
      t ← now;
      if t >? expiration_time then
        modify_self (with_latest_reading None);;
        t' ← now;
        c' ← get_self;
        mret (default_reading t' (is_listening c'))
      else
        mret {[ "text_heard" := VStr (text_heard r);
                "sentiment" := sentiment r;
                "time" := VStr (isoformat time_heard);
                "is_listening" := VBool (is_listening c) ]}
  end.

(** *** do_command (lines 213-238) *)

Definition do_command (command : gmap string value) : M (gmap string value) :=
  let cmd := dict_get_default command "command" (VStr "") in
  if py_eq_str cmd "start_listening" then
    start_listening;;
    mret {[ "status" := VStr "started" ]}
  else if py_eq_str cmd "stop_listening" then
    modify_self (with_is_listening false);;
    c ← get_self;
    match listening_task c with
    | Some t => cancel_task t
    | None => mret tt
    end;;
    mret {[ "status" := VStr "stopped" ]}
  else if py_eq_str cmd "get_status" then
    c ← get_self;
    mret {[ "is_listening" := VBool (is_listening c);
            "has_reading" := VBool (bool_decide (latest_reading c ≠ None));
            "reading_expiration_seconds" := VInt (reading_expiration_seconds c) ]}
  else
    mret {[ "error" := VStr ("Unknown command: " +:+ py_str cmd) ]}.

(** *** _listen_loop (lines 133-172) *)

Definition resumed {A} (o : outcome A) : M A :=
  match o with
  | Value a => mret a
  | Thrown e => reraise e
  end.

(** Line 139 up to its [await]. *)
Definition call_listen : M (option suspension) :=
  c ← get_self;
  match speech_service c with
  | None => raise AttributeError "'NoneType' object has no attribute 'listen'"
  | Some svc => emit (ECallListen svc);; mret (Some AtListen)
  end.

(** Lines 141-148 and 160-161: from the value of [listen()] to the next
    [await], or to the end of the [try] body ([None]). *)
Definition after_listen (text : string) : M (option suspension) :=
  if negb (String.eqb text "") && negb (String.eqb (py_strip text) "") then
    logger_info ("Heard: " +:+ text);;
    c ← get_self;
    match sentiment_service c with
    | None => raise AttributeError "'NoneType' object has no attribute 'do_command'"
    | Some svc =>
        emit (ECallDoCommand svc {[ "command" := VStr "get_sentiment";
                                    "text" := VStr text ]});;
        mret (Some (AtDoCommand text))
    end
  else
    logger_info "No speech heard";;
    mret None.

(** Lines 151-159: from the value of [do_command(...)] to the end of the
    [try] body. *)
Definition after_do_command (text : string) (sentiment_result : gmap string value)
    : M (option suspension) :=
  let sentiment := dict_get_default sentiment_result "sentiment" (VStr "Unknown") in
  logger_info ("Sentiment: " +:+ py_str sentiment);;
  t ← now;
  modify_self (with_latest_reading
                 (Some {| text_heard := text; sentiment := sentiment; time := t |}));;
  mret None.

(** The inner [try ... except Exception as e] (lines 137, 163-165) around the
    rest of an iteration. *)
Definition try_iteration (body : M (option suspension)) : M (option suspension) :=
  λ w,
    match body w with
    | (Raise e, w') =>
        if is_Exception (exn_cls e) then
          (logger_error ("Error in listening loop: " +:+ exn_msg e);;
           emit (ESleep 1);;
           mret (Some (AtSleep 1))) w'
        else (Raise e, w')
    | r => r
    end.

(** [while self.is_listening:] (line 136), entered with the rest of the
    current iteration: when that reaches the end of the loop body the flag is
    tested, and either a new iteration starts or the loop ends ([None]). *)
Definition while_is_listening (rest : M (option suspension)) : M (option suspension) :=
  s ← rest;
  match s with
  | Some _ => mret s
  | None =>
      c ← get_self;
      if is_listening c then try_iteration call_listen else mret None
  end.

(** The outer [try] (line 135) with its handlers and [finally] (lines
    167-172) around the loop. The result [Raise e] is an exception that
    leaves the coroutine. *)
Definition guarded (loop : M (option suspension)) : M loop_point :=
  λ w,
    match loop w with
    | (Ok (Some s), w') => (Ok (Awaiting s), w')
    | (Ok None, w') =>
        (modify_self (with_is_listening false);; mret Returned) w'
    | (Raise e, w') =>
        if is_CancelledError (exn_cls e) then
          (logger_info "Listening loop cancelled";;
           modify_self (with_is_listening false);;
           mret Returned) w'
        else if is_Exception (exn_cls e) then
          (logger_error ("Fatal error in listening loop: " +:+ exn_msg e);;
           modify_self (with_is_listening false);;
           mret Returned) w'
        else
          (modify_self (with_is_listening false);; reraise e) w'
    end.

(** One run of the coroutine, from a resumption to the next suspension. *)
Definition listen_loop (r : resumption) : M loop_point :=
  match r with
  | Start =>
      guarded (while_is_listening (mret None))
  | FromListen o =>
      guarded (while_is_listening (try_iteration (text ← resumed o; after_listen text)))
  | FromDoCommand text o =>
      guarded (while_is_listening
                 (try_iteration (sentiment_result ← resumed o;
                                 after_do_command text sentiment_result)))
  | FromSleep o =>
      (* the [await] is in the handler: what it raises leaves the inner [try] *)
      guarded (while_is_listening (resumed o;; mret None))
  | ThrownAtStart e =>
      (* raised before line 135 is reached: no [try] is entered, no line of
         the body runs, and the exception is the outcome of the task *)
      reraise e
  end.

(** [r] resumes a coroutine suspended at [p]. *)
Definition resumes (p : loop_point) (r : resumption) : bool :=
  match p, r with
  | Awaiting AtListen, FromListen _ => true
  | Awaiting (AtDoCommand text), FromDoCommand text' _ => String.eqb text text'
  | Awaiting (AtSleep _), FromSleep _ => true
  | _, _ => false
  end.

(** *** close (lines 246-254) *)

(** Lines 248-252, up to the [await]: the task awaited ([None] when there is
    none and the coroutine is over). *)
Definition close_start : M (option nat) :=
  modify_self (with_is_listening false);;
  c ← get_self;
  match listening_task c with
  | Some t => cancel_task t;; mret (Some t)
  | None => mret None
  end.

(** Lines 252-254: the [await] of the task returns, or raises what the task
    ended with; [except asyncio.CancelledError: pass]. *)
Definition close_resume (o : outcome unit) : M unit :=
  λ w,
    match o with
    | Value _ => (Ok tt, w)
    | Thrown e => if is_CancelledError (exn_cls e) then (Ok tt, w) else (Raise e, w)
    end.

(** *** Vocabulary for the statements about reconfigure *)

(** The value [reconfigure] assigns to [self.reading_expiration_seconds]. *)
Definition configured_expiration (attributes : gmap string value) : result Z :=
  match dict_get attributes "reading_expiration_seconds" with
  | VNone => Ok 20
  | raw => py_int raw
  end.

(** The binding a configuration asks for: the dependency under the name it
    gives, or the binding of before when it gives none. *)
Definition requested_binding (subtype : string) (name : value)
    (dependencies : gmap (string * string) resource) (before : option resource)
    : option resource :=
  if py_truthy name then
    match name with
    | VStr s => dependencies !! (subtype, s)
    | _ => None
    end
  else before.

End Component.

(** ** Executions of the loop *)

(** A run of the task: the coroutine is started, then resumed once for each
    element of [rs], as long as the resumption fits the point where it is
    suspended. The result is [None] when one does not fit. *)
Fixpoint resume_all `{Host} (rs : list resumption) (p : loop_point) (w : World)
    : option (result loop_point * World) :=
  match rs with
  | [] => Some (Ok p, w)
  | r :: rs' =>
      if resumes p r then
        match listen_loop r w with
        | (Ok p', w') => resume_all rs' p' w'
        | (Raise e, w') => match rs' with [] => Some (Raise e, w') | _ => None end
        end
      else None
  end.

(** ** Vocabulary of the statements *)

(** The world [w] after the events [es]. *)
Definition logged (w : World) (es : list event) : World :=
  {| self := self w; tasks := tasks w; journal := journal w ++ es; ticks := ticks w |}.

(** A call of the sentiment service. *)
Definition is_classifier_call (e : event) : bool :=
  match e with
  | ECallDoCommand _ _ => true
  | _ => false
  end.

(** [time_heard + timedelta(seconds=self.reading_expiration_seconds)] for the
    reading [r] stored in [c] (lines 192-193): the instant after which [r] is
    expired, or the [OverflowError] of the library. *)
Definition expiry_bound (c : component) (r : reading) : result Z :=
  match timedelta_seconds (reading_expiration_seconds c) with
  | Ok delta => datetime_add (time r) delta
  | Raise e => Raise e
  end.

(** The run enters the body of the coroutine: it is its first run or resumes
    it at an [await]. *)
Definition entered (r : resumption) : Prop :=
  match r with
  | ThrownAtStart _ => False
  | _ => True
  end.

(** The run of the coroutine ended it: it returned or an exception left it. *)
Definition finished (res : result loop_point) : Prop :=
  match res with
  | Ok (Awaiting _) => False
  | _ => True
  end.

(** The exception a resumption raises at the [await], if it raises one. *)
Definition thrown_into (r : resumption) : option exn :=
  match r with
  | FromListen (Thrown e) | FromDoCommand _ (Thrown e) | FromSleep (Thrown e) => Some e
  | _ => None
  end.

(** The flag and the task attribute agree with the tasks: [listening_task]
    refers to a task that was created, and a component that listens has one. *)
Definition consistent (w : World) : Prop :=
  (∀ t, listening_task (self w) = Some t → (t < length (tasks w))%nat)
  ∧ (is_listening (self w) = true → listening_task (self w) ≠ None).

(** [k] iterations in a row in which the speech call raises [e]: each is
    resumed with the exception, then from the sleep of the handler. *)
Fixpoint failing_iterations (e : exn) (k : nat) : list resumption :=
  match k with
  | O => []
  | S k' => FromListen (Thrown e) :: FromSleep (Value tt) :: failing_iterations e k'
  end.

(** The exact keys of a reading returned by [get_readings]. *)
Definition reading_keys : gset string :=
  {[ "text_heard"; "sentiment"; "time"; "is_listening" ]}.

(** A host for the examples: the clock advances by one second per reading. *)
Definition demo_host : Host :=
  {| isoformat := λ t, "T" +:+ pretty t;
     clock := λ k, Z.of_nat k * 1000000;
     py_repr := λ _, "<object>";
     parse_int := λ _, None;
     SpeechService_imported := true |}.


(** The component after a first configuration with both services: it
    listens, served by the task 0. *)
Definition first_attributes : gmap string value :=
  {[ "speech_service" := VStr "mic"; "sentiment_service" := VStr "mood" ]}.

Definition first_dependencies : gmap (string * string) resource :=
  {[ ("speech", "mic") := 1%nat; ("generic", "mood") := 2%nat ]}.

Definition configured_world : World :=
  (reconfigure (H := demo_host) first_attributes first_dependencies fresh_world).2.



(** The configured component after the command "stop_listening". *)
Definition stopped_world : World :=
  (do_command (H := demo_host) {[ "command" := VStr "stop_listening" ]} configured_world).2.

(** A configuration without the attribute speech_service. *)
Definition attributes_without_speech : gmap string value :=
  {[ "sentiment_service" := VStr "mood" ]}.

Definition dependencies_without_speech : gmap (string * string) resource :=
  {[ ("generic", "mood") := 2%nat ]}.

(** The configured component with the reading ("hi", "positive") stored at
    time 0, after [k] readings of the clock. *)
Definition heard_world (k : nat) : World :=
  {| self := with_latest_reading
               (Some {| text_heard := "hi"; sentiment := VStr "positive"; time := 0 |})
               (self configured_world);
     tasks := tasks configured_world;
     journal := journal configured_world;
     ticks := k |}.

(** A configuration with a speech service and a window of 7.5, and no
    sentiment service. *)
Definition attributes_without_sentiment : gmap string value :=
  {[ "speech_service" := VStr "mic"; "reading_expiration_seconds" := VNum (75 # 10) ]}.

Definition boom : exn := {| exn_cls := OtherException "RuntimeError"; exn_msg := "boom" |}.
Definition cancelled : exn := {| exn_cls := CancelledError; exn_msg := "" |}.

(** A host on which the speech API could not be imported. *)
Definition offline_host : Host :=
  {| isoformat := λ t, "T" +:+ pretty t;
     clock := λ k, Z.of_nat k * 1000000;
     py_repr := λ _, "<object>";
     parse_int := λ _, None;
     SpeechService_imported := false |}.

(** A component with a window of -5 seconds and a reading stored after one
    minute, at the 60th reading of the clock. *)
Definition impatient_world : World :=
  {| self := with_reading_expiration_seconds (-5)
               (with_latest_reading
                  (Some {| text_heard := "hi"; sentiment := VStr "positive";
                           time := 60000000 |})
                  init);
     tasks := []; journal := []; ticks := 60 |}.

(** A configuration whose window is not a number. *)
Definition attributes_with_bad_window : gmap string value :=
  {[ "speech_service" := VStr "mic"; "sentiment_service" := VStr "mood";
     "reading_expiration_seconds" := VStr "soon" ]}.

Definition interrupt : exn :=
  {| exn_cls := OtherBaseException "KeyboardInterrupt"; exn_msg := "" |}.

(** A configuration with a window of 10^15 seconds. *)
Definition attributes_with_huge_window : gmap string value :=
  {[ "speech_service" := VStr "mic"; "sentiment_service" := VStr "mood";
     "reading_expiration_seconds" := VNum (1000000000000000 # 1) ]}.

(** The component configured with it, after its loop has heard "hi" and
    stored the reading ("hi", "positive"). *)
Definition huge_window_world : World :=
  let configured :=
    (reconfigure (H := demo_host) attributes_with_huge_window first_dependencies
       fresh_world).2 in
  let started := (listen_loop (H := demo_host) Start configured).2 in
  let heard := (listen_loop (H := demo_host) (FromListen (Value "hi")) started).2 in
  (listen_loop (H := demo_host)
     (FromDoCommand "hi" (Value {[ "sentiment" := VStr "positive" ]})) heard).2.

(** The configured component after "stop_listening" and "start_listening",
    both before the task 0 has had its first run: the task 0 has its
    cancellation requested, the task 1 is new, and the flag is set. *)
Definition restarted_world : World :=
  (do_command (H := demo_host) {[ "command" := VStr "start_listening" ]}
     stopped_world).2.

(** * Properties *)

(** ** Auxiliary facts *)

Lemma py_eq_str_false (v : value) (s : string) :
  v ≠ VStr s → py_eq_str v s = false.
Proof.
  destruct v as [| | | |s'| |]; simpl; try reflexivity.
  intros Hne. apply String.eqb_neq. congruence.
Qed.

Lemma py_eq_str_true (v : value) (s : string) :
  py_eq_str v s = true → v = VStr s.
Proof.
  destruct v as [| | | |s'| |]; simpl; try discriminate.
  intros Heq. apply String.eqb_eq in Heq. congruence.
Qed.

Lemma rstrip_whitespace_only (s : string) :
  whitespace_only s = true → rstrip s = "".
Proof.
  induction s as [|a s IH]; simpl; [reflexivity|].
  intros [Ha Hs]%andb_true_iff. rewrite (IH Hs), Ha. reflexivity.
Qed.

Lemma rstrip_empty_inv (s : string) :
  rstrip s = "" → whitespace_only s = true.
Proof.
  induction s as [|a s IH]; simpl; [reflexivity|].
  destruct (py_isspace a); simpl; [|discriminate].
  destruct (String.eqb (rstrip s) "") eqn:E; [|discriminate].
  intros _. apply IH. by apply String.eqb_eq.
Qed.

Lemma lstrip_whitespace_only (s : string) :
  whitespace_only (lstrip s) = whitespace_only s.
Proof.
  induction s as [|a s IH]; simpl; [reflexivity|].
  destruct (py_isspace a) eqn:E; simpl; [exact IH|]. by rewrite E.
Qed.

(** [text.strip()] is empty exactly for a text of white space only. *)
Lemma py_strip_empty (s : string) :
  py_strip s = "" ↔ whitespace_only s = true.
Proof.
  unfold py_strip. split.
  - intros Hs. rewrite <- lstrip_whitespace_only. by apply rstrip_empty_inv.
  - intros Hs. apply rstrip_whitespace_only. by rewrite lstrip_whitespace_only.
Qed.

(** The test of line 141, [text and text.strip()]. *)
Lemma heard_test (text : string) :
  negb (String.eqb text "") && negb (String.eqb (py_strip text) "")
  = negb (whitespace_only text).
Proof.
  destruct (whitespace_only text) eqn:E; simpl.
  - apply py_strip_empty in E. rewrite E. simpl. apply andb_false_r.
  - destruct (String.eqb (py_strip text) "") eqn:E1.
    + apply String.eqb_eq, py_strip_empty in E1. congruence.
    + destruct text; [discriminate E|reflexivity].
Qed.

Section Properties.
Context `{Host}.

(** Unfolding of the monad, for computations on an arbitrary world. *)
Ltac run :=
  unfold mbind, M_bind, mret, M_ret, raise, reraise, from_result, get_self,
    modify_self, logger_info, logger_error, emit, now, create_task,
    cancel_task in *;
  cbn [fst snd self tasks journal ticks] in *.

(** ** do_command *)

(** C6. A command map whose "command" value is none of "start_listening",
    "stop_listening" and "get_status" gets the payload
    {"error": "Unknown command: <cmd>"} as the result of the call (nothing is
    raised) and the world, hence every attribute of the component, is left as
    it was. A map without the key "command" is such a map: its command is the
    empty string. *)
Theorem do_command_unknown (command : gmap string value) (w : World) :
  let cmd := dict_get_default command "command" (VStr "") in
  (cmd ≠ VStr "start_listening" →
   cmd ≠ VStr "stop_listening" →
   cmd ≠ VStr "get_status" →
   do_command command w
   = (Ok {[ "error" := VStr ("Unknown command: " +:+ py_str cmd) ]}, w))
  ∧ (command !! "command" = None →
     do_command command w = (Ok {[ "error" := VStr "Unknown command: " ]}, w)).
Proof.
  intros cmd.
  assert (Hgen : cmd ≠ VStr "start_listening" → cmd ≠ VStr "stop_listening" →
                 cmd ≠ VStr "get_status" →
                 do_command command w
                 = (Ok {[ "error" := VStr ("Unknown command: " +:+ py_str cmd) ]}, w)).
  { intros H1 H2 H3. unfold do_command. fold cmd.
    rewrite (py_eq_str_false _ _ H1), (py_eq_str_false _ _ H2),
      (py_eq_str_false _ _ H3).
    reflexivity. }
  split; [exact Hgen|].
  intros Hnone.
  assert (Hcmd : cmd = VStr "").
  { unfold cmd, dict_get_default. by rewrite Hnone. }
  rewrite Hgen; rewrite Hcmd; [reflexivity|discriminate..].
Qed.

(** ** start_listening *)


(** ** get_readings *)

(** What [get_readings] does with a stored reading, by the three outcomes
    of lines 192-195. *)
Lemma get_readings_stored (w : World) (r : reading) :
  latest_reading (self w) = Some r →
  get_readings w
  = match expiry_bound (self w) r with
    | Raise e => (Raise e, w)
    | Ok bound =>
        if clock (ticks w) >? bound then
          (Ok (default_reading (clock (S (ticks w))) (is_listening (self w))),
           {| self := with_latest_reading None (self w); tasks := tasks w;
              journal := journal w; ticks := S (S (ticks w)) |})
        else
          (Ok {[ "text_heard" := VStr (text_heard r);
                 "sentiment" := sentiment r;
                 "time" := VStr (isoformat (time r));
                 "is_listening" := VBool (is_listening (self w)) ]},
           {| self := self w; tasks := tasks w; journal := journal w;
              ticks := S (ticks w) |})
    end.
Proof.
  intros Hr. unfold get_readings, expiry_bound. run. rewrite Hr.
  destruct (timedelta_seconds (reading_expiration_seconds (self w))) as [delta|e];
    [|by destruct w].
  destruct (datetime_add (time r) delta) as [bound|e]; [|by destruct w].
  cbn. by destruct (clock (ticks w) >? bound).
Qed.

(** The bound, when there is one, is the stored time plus the window. *)
Lemma expiry_bound_Ok (c : component) (r : reading) (bound : Z) :
  expiry_bound c r = Ok bound →
  bound = time r + reading_expiration_seconds c * 1000000.
Proof.
  unfold expiry_bound, timedelta_seconds, datetime_add.
  destruct (_ && _); [|discriminate]. destruct (_ && _); [|discriminate].
  by intros [= <-].
Qed.

(** C1, as the code has it. Where the stored time plus the expiration window
    is a [datetime] the library can hold (the bound): a call of
    [get_readings] with a reading stored and the clock not strictly after the
    bound returns the stored text and sentiment with the stored time in ISO
    form, and leaves the component as it is; with a reading stored and the
    clock strictly after the bound it clears the reading and returns the
    default reading, dated by the next reading of the clock, and a status
    request made then reports has_reading false. With no reading stored it
    returns the default reading, dated by the clock. Every result carries the
    is_listening flag. *)
Theorem get_readings_spec (w : World) :
  let c := self w in
  let t := clock (ticks w) in
  (∀ r bound, latest_reading c = Some r →
        expiry_bound c r = Ok bound →
        ¬ (t > bound) →
        bound = time r + reading_expiration_seconds c * 1000000
        ∧ ∃ w', get_readings w
              = (Ok {[ "text_heard" := VStr (text_heard r);
                       "sentiment" := sentiment r;
                       "time" := VStr (isoformat (time r));
                       "is_listening" := VBool (is_listening c) ]}, w')
              ∧ self w' = c ∧ tasks w' = tasks w ∧ journal w' = journal w)
  ∧ (latest_reading c = None →
     ∃ w', get_readings w
           = (Ok {[ "text_heard" := VStr "";
                    "sentiment" := VStr "None";
                    "time" := VStr (isoformat t);
                    "is_listening" := VBool (is_listening c) ]}, w')
           ∧ self w' = c ∧ tasks w' = tasks w ∧ journal w' = journal w)
  ∧ (∀ r bound, latest_reading c = Some r →
          expiry_bound c r = Ok bound →
          t > bound →
          bound = time r + reading_expiration_seconds c * 1000000
          ∧ ∃ w', get_readings w
                = (Ok {[ "text_heard" := VStr "";
                         "sentiment" := VStr "None";
                         "time" := VStr (isoformat (clock (S (ticks w))));
                         "is_listening" := VBool (is_listening c) ]}, w')
                ∧ self w' = with_latest_reading None c
                ∧ tasks w' = tasks w ∧ journal w' = journal w
                ∧ ∃ status, do_command {[ "command" := VStr "get_status" ]} w'
                            = (Ok status, w')
                            ∧ status !! "has_reading" = Some (VBool false)
                            ∧ status !! "is_listening" = Some (VBool (is_listening c))).
Proof.
  intros c t. unfold c, t. split; [|split].
  - intros r bound Hr Hbound Hfresh. split; [by apply expiry_bound_Ok|].
    rewrite (get_readings_stored w r Hr), Hbound.
    destruct (Z.gtb_spec (clock (ticks w)) bound) as [Hlt|Hge]; [lia|].
    eexists. split; [reflexivity|]. done.
  - intros Hr. unfold get_readings. run. rewrite Hr.
    eexists. split; [reflexivity|]. done.
  - intros r bound Hr Hbound Hexp. split; [by apply expiry_bound_Ok|].
    rewrite (get_readings_stored w r Hr), Hbound.
    destruct (Z.gtb_spec (clock (ticks w)) bound) as [Hlt|Hge]; [|lia].
    eexists. split; [reflexivity|]. cbn [self tasks journal].
    repeat split.
    eexists. split; [reflexivity|]. done.
Qed.

(** ** _listen_loop *)

(** The test of the [while] and what follows it, run on its own. *)
Lemma listen_loop_Start (w : World) :
  listen_loop Start w =
  if is_listening (self w) then
    match speech_service (self w) with
    | Some svc => (Ok (Awaiting AtListen), logged w [ECallListen svc])
    | None =>
        (Ok (Awaiting (AtSleep 1)),
         logged w [ELog ERROR "Error in listening loop: 'NoneType' object has no attribute 'listen'";
                   ESleep 1])
    end
  else
    (Ok Returned, {| self := with_is_listening false (self w); tasks := tasks w;
                     journal := journal w; ticks := ticks w |}).
Proof.
  unfold listen_loop, guarded, while_is_listening, try_iteration, call_listen, logged.
  run. destruct (is_listening (self w)); [|reflexivity].
  destruct (speech_service (self w)); cbn; [reflexivity|].
  by rewrite <- app_assoc.
Qed.

(** A run that starts at the test of the [while] never lets an exception out
    and writes no reading. *)
Lemma listen_loop_Start_frame (w : World) :
  ∃ p w', listen_loop Start w = (Ok p, w')
          ∧ latest_reading (self w') = latest_reading (self w)
          ∧ tasks w' = tasks w
          ∧ List.filter is_classifier_call (journal w')
            = List.filter is_classifier_call (journal w).
Proof.
  rewrite listen_loop_Start.
  destruct (is_listening (self w)); [destruct (speech_service (self w))|];
    eexists _, _; (split; [reflexivity|]); cbn [self tasks journal logged];
    rewrite ?List.filter_app, ?app_nil_r; done.
Qed.

(** An exception of class [Exception] raised at the [await] of the speech
    call or of the sentiment call is handled by the inner [try]. *)
Lemma iteration_fault (e : exn) (text : string) (w : World) :
  is_Exception (exn_cls e) = true →
  let w' := logged w [ELog ERROR ("Error in listening loop: " +:+ exn_msg e); ESleep 1] in
  listen_loop (FromListen (Thrown e)) w = (Ok (Awaiting (AtSleep 1)), w')
  ∧ listen_loop (FromDoCommand text (Thrown e)) w = (Ok (Awaiting (AtSleep 1)), w').
Proof.
  intros He.
  unfold listen_loop, guarded, while_is_listening, try_iteration, resumed, logged.
  run. rewrite He. cbn. by rewrite <- app_assoc.
Qed.

(** The value of [listen()] leads to the sentiment call exactly when it is
    not white space only; a text of white space only ends the iteration. *)
Lemma listen_loop_heard (text : string) (w : World) :
  listen_loop (FromListen (Value text)) w =
  if whitespace_only text then
    listen_loop Start (logged w [ELog INFO "No speech heard"])
  else
    match sentiment_service (self w) with
    | Some svc =>
        (Ok (Awaiting (AtDoCommand text)),
         logged w [ELog INFO ("Heard: " +:+ text);
                   ECallDoCommand svc {[ "command" := VStr "get_sentiment";
                                         "text" := VStr text ]}])
    | None =>
        (Ok (Awaiting (AtSleep 1)),
         logged w [ELog INFO ("Heard: " +:+ text);
                   ELog ERROR "Error in listening loop: 'NoneType' object has no attribute 'do_command'";
                   ESleep 1])
    end.
Proof.
  rewrite listen_loop_Start.
  unfold listen_loop, guarded, while_is_listening, try_iteration, resumed,
    after_listen, call_listen, logged.
  run. rewrite heard_test.
  destruct w as [[sp se n lr lt il] ts j k]; cbn.
  destruct (whitespace_only text), il, sp, se; cbn;
    rewrite <- ?app_assoc; reflexivity.
Qed.

(** The value of the sentiment call is stored, and the loop goes on at the
    test of the [while]. *)
Lemma listen_loop_classified (text : string) (sentiment_result : gmap string value)
    (w : World) :
  let sentiment := dict_get_default sentiment_result "sentiment" (VStr "Unknown") in
  listen_loop (FromDoCommand text (Value sentiment_result)) w =
  listen_loop Start
    {| self := with_latest_reading
                 (Some {| text_heard := text; sentiment := sentiment;
                          time := clock (ticks w) |}) (self w);
       tasks := tasks w;
       journal := journal w ++ [ELog INFO ("Sentiment: " +:+ py_str sentiment)];
       ticks := S (ticks w) |}.
Proof.
  intros sentiment. rewrite listen_loop_Start.
  unfold listen_loop, guarded, while_is_listening, try_iteration, resumed,
    after_do_command, call_listen, logged.
  fold sentiment. run.
  destruct w as [[sp se n lr lt il] ts j k]; cbn.
  destruct il, sp; cbn; rewrite <- ?app_assoc; reflexivity.
Qed.

(** The pause over, the loop goes on at the test of the [while]. *)
Lemma listen_loop_slept (w : World) :
  listen_loop (FromSleep (Value tt)) w = listen_loop Start w.
Proof. reflexivity. Qed.

(** Only the value of the sentiment call makes a run write a reading. *)
Lemma listen_loop_reading_frame (r : resumption) (w : World) :
  (∀ text d, r ≠ FromDoCommand text (Value d)) →
  latest_reading (self (listen_loop r w).2) = latest_reading (self w).
Proof.
  intros Hr.
  destruct r as [|[text|e]|text [d|e]|[[]|e]|e]; try (by destruct (Hr text d)).
  - destruct (listen_loop_Start_frame w) as (p & w' & -> & Hl & _). exact Hl.
  - rewrite listen_loop_heard. destruct (whitespace_only text).
    + destruct (listen_loop_Start_frame (logged w [ELog INFO "No speech heard"]))
        as (p & w' & -> & Hl & _). exact Hl.
    + by destruct (sentiment_service (self w)).
  - by destruct e as [[] msg].
  - by destruct e as [[] msg].
  - rewrite listen_loop_slept.
    destruct (listen_loop_Start_frame w) as (p & w' & -> & Hl & _). exact Hl.
  - by destruct e as [[] msg].
  - reflexivity.
Qed.

(** C2. When the speech call or the sentiment call of an iteration raises an
    exception of class [Exception], the inner handler takes it: the error is
    logged, the coroutine sleeps for 1 second, and the run ends suspended in
    that sleep, not finished; no attribute of the component is written, so the
    stored reading is the one of before (also by the earlier run of the
    iteration that led to the sentiment call). Once the sleep is over the loop
    is back at its test, and with the flag still set the next iteration is
    attempted: the speech service is called again. *)
Theorem failed_iteration_continues (e : exn) (text : string) (w : World) :
  is_Exception (exn_cls e) = true →
  let w' := logged w [ELog ERROR ("Error in listening loop: " +:+ exn_msg e); ESleep 1] in
  listen_loop (FromListen (Thrown e)) w = (Ok (Awaiting (AtSleep 1)), w')
  ∧ listen_loop (FromDoCommand text (Thrown e)) w = (Ok (Awaiting (AtSleep 1)), w')
  ∧ self w' = self w
  ∧ (∀ w0, latest_reading (self (listen_loop (FromListen (Value text)) w0).2)
           = latest_reading (self w0))
  ∧ (∀ w2, is_listening (self w2) = true →
           ∃ s w3, listen_loop (FromSleep (Value tt)) w2 = (Ok (Awaiting s), w3)
                   ∧ self w3 = self w2
                   ∧ ∀ svc, speech_service (self w2) = Some svc →
                            s = AtListen ∧ w3 = logged w2 [ECallListen svc]).
Proof.
  intros He w'.
  destruct (iteration_fault e text w He) as [H1 H2].
  split; [exact H1|]. split; [exact H2|]. split; [reflexivity|]. split.
  - intros w0. by apply listen_loop_reading_frame.
  - intros w2 Hl. rewrite listen_loop_slept, listen_loop_Start, Hl.
    destruct (speech_service (self w2)) as [svc|].
    + eexists _, _. split; [reflexivity|]. split; [reflexivity|].
      intros svc' [= <-]. done.
    + eexists _, _. split; [reflexivity|]. split; [reflexivity|]. discriminate.
Qed.

(** C7. In an iteration where the speech service returned a non-empty text,
    the sentiment service was called for it, and the response has no key
    "sentiment", nothing is raised: "Unknown" stands for the label, the
    reading {text_heard: the text, sentiment: "Unknown", time: now} is stored,
    and the loop goes on at its test. *)
Theorem missing_sentiment_is_Unknown (text called_with : string)
    (sentiment_result : gmap string value) (w0 w1 w : World) :
  text ≠ "" →
  listen_loop (FromListen (Value text)) w0 = (Ok (Awaiting (AtDoCommand called_with)), w1) →
  sentiment_result !! "sentiment" = None →
  let stored := {| text_heard := text; sentiment := VStr "Unknown";
                   time := clock (ticks w) |} in
  called_with = text
  ∧ listen_loop (FromDoCommand called_with (Value sentiment_result)) w
    = listen_loop Start
        {| self := with_latest_reading (Some stored) (self w);
           tasks := tasks w;
           journal := journal w ++ [ELog INFO "Sentiment: Unknown"];
           ticks := S (ticks w) |}
  ∧ ∃ p w', listen_loop (FromDoCommand called_with (Value sentiment_result)) w = (Ok p, w')
            ∧ latest_reading (self w') = Some stored.
Proof.
  intros Htext Hcall Hkey stored.
  assert (Heq : called_with = text).
  { rewrite listen_loop_heard in Hcall. destruct (whitespace_only text).
    - rewrite listen_loop_Start in Hcall. cbn [logged self] in Hcall.
      destruct (is_listening (self w0)); [|discriminate].
      destruct (speech_service (self w0)); discriminate.
    - destruct (sentiment_service (self w0)); [|discriminate]. congruence. }
  subst called_with. split; [reflexivity|].
  assert (Hrun := listen_loop_classified text sentiment_result w).
  unfold dict_get_default in Hrun. rewrite Hkey in Hrun. cbn [default py_str] in Hrun.
  split; [exact Hrun|].
  rewrite Hrun.
  match goal with |- context [listen_loop Start ?v] =>
    destruct (listen_loop_Start_frame v) as (p & w' & Hs & Hl & _) end.
  exists p, w'. split; [exact Hs|]. rewrite Hl. reflexivity.
Qed.

(** C8. When the speech service returns an empty text or a text of white
    space only, the run logs "No speech heard" and is at once back at the test
    of the [while]: the sentiment service is not called, no attribute of the
    component is written by the skip (the stored reading and its time stay),
    and with the flag set and a speech service bound the next call of the
    speech service is made in the same run, without a sleep. *)
Theorem blank_utterance_skipped (text : string) (w : World) :
  whitespace_only text = true →
  let w' := (listen_loop (FromListen (Value text)) w).2 in
  listen_loop (FromListen (Value text)) w
  = listen_loop Start (logged w [ELog INFO "No speech heard"])
  ∧ latest_reading (self w') = latest_reading (self w)
  ∧ List.filter is_classifier_call (journal w')
    = List.filter is_classifier_call (journal w)
  ∧ (is_listening (self w) = true →
     ∀ svc, speech_service (self w) = Some svc →
            listen_loop (FromListen (Value text)) w
            = (Ok (Awaiting AtListen),
               logged w [ELog INFO "No speech heard"; ECallListen svc])).
Proof.
  intros Hblank w'.
  assert (Hrun := listen_loop_heard text w). rewrite Hblank in Hrun.
  split; [exact Hrun|]. split; [|split].
  - by apply listen_loop_reading_frame.
  - unfold w'. rewrite Hrun.
    destruct (listen_loop_Start_frame (logged w [ELog INFO "No speech heard"]))
      as (p & w2 & -> & _ & _ & Hj).
    cbn [snd]. rewrite Hj. cbn [logged journal].
    rewrite List.filter_app. cbn. by rewrite app_nil_r.
  - intros Hl svc Hsvc. rewrite Hrun, listen_loop_Start.
    cbn [logged self]. rewrite Hl, Hsvc. unfold logged. cbn [self tasks journal ticks].
    by rewrite <- app_assoc.
Qed.

(** What the outer [try] guarantees: a run that ends the coroutine leaves
    the flag cleared. *)
Lemma guarded_finished (loop : M (option suspension)) (w w' : World)
    (res : result loop_point) :
  guarded loop w = (res, w') → finished res → is_listening (self w') = false.
Proof.
  unfold guarded. destruct (loop w) as [[[s|]|e] w1]; run.
  - intros [= <- <-] [].
  - by intros [= <- <-] _.
  - destruct (is_CancelledError (exn_cls e)); [by intros [= <- <-] _|].
    destruct (is_Exception (exn_cls e)); by intros [= <- <-] _.
Qed.

(** C9, as the code has it. Once the body of the coroutine has been entered
    (its first run, or a run that resumes it at an [await]), whenever a run
    ends the coroutine (it returns, or an exception leaves it),
    [is_listening] is false at that point: on cancellation, on an exception
    that the inner handler does not take, and when the flag is found cleared
    at the test of the [while]. A [CancelledError] raised at an [await] is
    caught and logged, and the coroutine returns: the exception does not
    leave it. A task cancelled before its first run never enters the body: no
    line runs, nothing is logged, the world and so the flag stay as they are,
    and the exception is the outcome of the task. *)
Theorem listen_loop_exit_clears_flag (r : resumption) (w : World) :
  (entered r →
   ∀ res w', listen_loop r w = (res, w') → finished res →
             is_listening (self w') = false)
  ∧ (∀ e, thrown_into r = Some e → is_CancelledError (exn_cls e) = true →
          listen_loop r w
          = (Ok Returned,
             {| self := with_is_listening false (self w); tasks := tasks w;
                journal := journal w ++ [ELog INFO "Listening loop cancelled"];
                ticks := ticks w |}))
  ∧ (∀ e, r = ThrownAtStart e → listen_loop r w = (Raise e, w)).
Proof.
  split; [|split].
  - intros Hentered res w'. destruct r; try apply guarded_finished. destruct Hentered.
  - intros e Hthrown Hcancel.
    assert (Hexc : is_Exception (exn_cls e) = false)
      by (destruct (exn_cls e); done).
    destruct r as [|[text|e']|text [d|e']|[[]|e']|e']; try discriminate;
      injection Hthrown as ->;
      unfold listen_loop, guarded, while_is_listening, try_iteration, resumed;
      run; rewrite ?Hexc, Hcancel; reflexivity.
  - by intros e ->.
Qed.

(** ** reconfigure *)

(** What a reconfiguration does to the loop: it leaves the tasks and the flag
    alone, or, with the flag clear and no exception, it starts one task. *)
Lemma reconfigure_loop (attributes : gmap string value)
    (dependencies : gmap (string * string) resource) (w w' : World) (r : result unit) :
  reconfigure attributes dependencies w = (r, w') →
  (tasks w' = tasks w
   ∧ is_listening (self w') = is_listening (self w)
   ∧ listening_task (self w') = listening_task (self w)
   ∧ (r = Ok tt → is_listening (self w) = true))
  ∨ (r = Ok tt
     ∧ is_listening (self w) = false
     ∧ tasks w' = tasks w ++ [{| cancel_requested := false |}]
     ∧ is_listening (self w') = true
     ∧ listening_task (self w') = Some (length (tasks w))).
Proof.
  unfold reconfigure, start_listening, get_resource_name, dependency.
  run. destruct w as [[sp se n lr lt il] ts j k]; cbn.
  intros Hrun.
  repeat (case_match; simplify_eq/=; try done); try (by left); try (by right).
Qed.

(** A reconfiguration that returns has both bindings, each one the requested
    one, and the configured window. *)
Lemma reconfigure_Ok_inv (attributes : gmap string value)
    (dependencies : gmap (string * string) resource) (w w' : World) :
  reconfigure attributes dependencies w = (Ok tt, w') →
  speech_service (self w')
  = requested_binding "speech" (dict_get attributes "speech_service") dependencies
      (speech_service (self w))
  ∧ sentiment_service (self w')
    = requested_binding "generic" (dict_get attributes "sentiment_service") dependencies
        (sentiment_service (self w))
  ∧ speech_service (self w') ≠ None
  ∧ sentiment_service (self w') ≠ None
  ∧ configured_expiration attributes = Ok (reading_expiration_seconds (self w')).
Proof.
  unfold reconfigure, start_listening, get_resource_name, dependency,
    requested_binding, configured_expiration.
  run. destruct w as [[sp se n lr lt il] ts j k]; cbn.
  intros Hrun.
  repeat (case_match; simplify_eq/=; try done).
Qed.

(** C10. On a freshly constructed component, a [reconfigure] that raises
    "sentiment_service dependency is required" has by then assigned the
    configured window (the integer value of reading_expiration_seconds, or 20
    without one) and installed the speech dependency the configuration names:
    the component it leaves behind differs from the fresh one. No task is
    created and the flag stays clear. *)
Theorem reconfigure_fails_after_assigning (attributes : gmap string value)
    (dependencies : gmap (string * string) resource) (w w' : World) :
  self w = init →
  reconfigure attributes dependencies w
  = (Raise {| exn_cls := ValueError;
              exn_msg := "sentiment_service dependency is required" |}, w') →
  configured_expiration attributes = Ok (reading_expiration_seconds (self w'))
  ∧ (∃ s svc, dict_get attributes "speech_service" = VStr s
              ∧ dependencies !! ("speech", s) = Some svc
              ∧ speech_service (self w') = Some svc)
  ∧ py_truthy (dict_get attributes "sentiment_service") = false
  ∧ sentiment_service (self w') = None
  ∧ self w' ≠ self w
  ∧ is_listening (self w') = false
  ∧ tasks w' = tasks w.
Proof.
  unfold reconfigure, start_listening, get_resource_name, dependency,
    configured_expiration.
  run. destruct w as [c ts j k]; cbn. intros ->. cbn.
  intros Hrun.
  repeat (case_match; simplify_eq/=; try done).
  all: repeat split; try done; eauto.
Qed.


(** C5, as the code has it. [reconfigure] raises, creates no task and leaves
    the flag as it is (false on a component that was not listening) when a
    dependency that the configuration names is not among the dependencies, or
    when the configuration names none for a service the component has no
    binding for yet, as on a freshly constructed component. *)
Theorem reconfigure_missing_dependency (attributes : gmap string value)
    (dependencies : gmap (string * string) resource) (w : World) :
  let speech_name := dict_get attributes "speech_service" in
  let sentiment_name := dict_get attributes "sentiment_service" in
  (py_truthy speech_name = false ∧ speech_service (self w) = None)
  ∨ (py_truthy sentiment_name = false ∧ sentiment_service (self w) = None)
  ∨ (∃ s, speech_name = VStr s ∧ s ≠ "" ∧ dependencies !! ("speech", s) = None)
  ∨ (∃ s, sentiment_name = VStr s ∧ s ≠ "" ∧ dependencies !! ("generic", s) = None) →
  ∃ e w', reconfigure attributes dependencies w = (Raise e, w')
          ∧ tasks w' = tasks w
          ∧ is_listening (self w') = is_listening (self w)
          ∧ listening_task (self w') = listening_task (self w).
Proof.
  intros speech_name sentiment_name Hmissing.
  destruct (reconfigure attributes dependencies w) as [r w'] eqn:Hrun.
  destruct r as [[]|e].
  - exfalso.
    destruct (reconfigure_Ok_inv _ _ _ _ Hrun) as (Hsp & Hse & Hsp' & Hse' & _).
    rewrite Hsp in Hsp'. rewrite Hse in Hse'. unfold requested_binding in *.
    fold speech_name in Hsp'. fold sentiment_name in Hse'.
    destruct Hmissing as [[Hn Hb]|[[Hn Hb]|[(s & Hn & Hs & Hd)|(s & Hn & Hs & Hd)]]].
    + rewrite Hn in Hsp'. congruence.
    + rewrite Hn in Hse'. congruence.
    + rewrite Hn in Hsp'. cbn in Hsp'.
      apply String.eqb_neq in Hs. rewrite Hs in Hsp'. cbn in Hsp'. congruence.
    + rewrite Hn in Hse'. cbn in Hse'.
      apply String.eqb_neq in Hs. rewrite Hs in Hse'. cbn in Hse'. congruence.
  - exists e, w'. split; [reflexivity|].
    destruct (reconfigure_loop _ _ _ _ _ Hrun) as [(Ht & Hl & Hk & _)|(Hr & _)];
      [done|discriminate].
Qed.

End Properties.

(** * The statements at concrete inputs *)


(** C5 does not hold as stated: on a configured component that was stopped,
    a configuration without speech_service is accepted, the earlier binding
    is kept and the component starts listening. *)
Lemma reconfigure_accepts_missing_name :
  let w := stopped_world in
  let run := reconfigure (H := demo_host) attributes_without_speech
               dependencies_without_speech w in
  attributes_without_speech !! "speech_service" = None
  ∧ is_listening (self w) = false
  ∧ length (tasks w) = 1%nat
  ∧ run.1 = Ok tt
  ∧ speech_service (self run.2) = Some 1%nat
  ∧ is_listening (self run.2) = true
  ∧ length (tasks run.2) = 2%nat.
Proof. vm_compute. done. Qed.

(** C1 does not hold as stated: with a reading stored at time 0, a window
    of 10^15 seconds and the clock at 1 second, the clock is not after the
    stored time plus the window, and yet the reading is not returned:
    [timedelta(seconds=10**15)] raises [OverflowError], which leaves
    [get_readings]. *)
Lemma get_readings_raises_OverflowError :
  let w := huge_window_world in
  latest_reading (self w)
  = Some {| text_heard := "hi"; sentiment := VStr "positive"; time := 0 |}
  ∧ reading_expiration_seconds (self w) = 1000000000000000
  ∧ clock (Host := demo_host) (ticks w) = 1000000
  ∧ ¬ (clock (Host := demo_host) (ticks w) > 0 + 1000000000000000 * 1000000)
  ∧ get_readings (H := demo_host) w
    = (Raise {| exn_cls := OverflowError;
                exn_msg := "Python int too large to convert to C int" |},
       w).
Proof. vm_compute. repeat split. intros [=]. Qed.

(** C9 does not hold as stated: the task 0 of a component that was stopped
    and started again before that task had run ends with the
    [CancelledError] as its outcome, nothing caught or logged, and the flag
    is set when it has finished. *)
Lemma cancelled_before_first_run :
  let w := restarted_world in
  tasks w = [{| cancel_requested := true |}; {| cancel_requested := false |}]
  ∧ listen_loop (H := demo_host) (ThrownAtStart cancelled) w = (Raise cancelled, w)
  ∧ finished (listen_loop (H := demo_host) (ThrownAtStart cancelled) w).1
  ∧ is_listening (self (listen_loop (H := demo_host) (ThrownAtStart cancelled) w).2)
    = true.
Proof. vm_compute. repeat split. Qed.

(** [validate_config] accepts that configuration: it lists the sentiment
    service as the only dependency. *)
Example validate_config_without_speech :
  validate_config attributes_without_speech = ([VStr "mood"], []).
Proof. reflexivity. Qed.

Lemma do_command_unknown_witness :
  do_command (H := demo_host) {[ "command" := VStr "frobnicate" ]} fresh_world
  = (Ok {[ "error" := VStr "Unknown command: frobnicate" ]}, fresh_world)
  ∧ do_command (H := demo_host) ∅ fresh_world
    = (Ok {[ "error" := VStr "Unknown command: " ]}, fresh_world).
Proof.
  split.
  - pose proof (do_command_unknown (H := demo_host)
                  {[ "command" := VStr "frobnicate" ]} fresh_world) as Hw.
    cbv zeta in Hw. destruct Hw as [Hw _].
    apply Hw; vm_compute; discriminate.
  - pose proof (do_command_unknown (H := demo_host) ∅ fresh_world) as Hw.
    cbv zeta in Hw. destruct Hw as [_ Hw].
    apply Hw. reflexivity.
Defined.


Lemma get_readings_spec_witness :
  (get_readings (H := demo_host) (heard_world 5)).1
  = Ok {[ "text_heard" := VStr "hi"; "sentiment" := VStr "positive";
          "time" := VStr "T0"; "is_listening" := VBool true ]}
  ∧ (get_readings (H := demo_host) fresh_world).1
    = Ok {[ "text_heard" := VStr ""; "sentiment" := VStr "None";
            "time" := VStr "T0"; "is_listening" := VBool false ]}
  ∧ (get_readings (H := demo_host) (heard_world 21)).1
    = Ok {[ "text_heard" := VStr ""; "sentiment" := VStr "None";
            "time" := VStr "T22000000"; "is_listening" := VBool true ]}.
Proof.
  split; [|split].
  - pose proof (get_readings_spec (H := demo_host) (heard_world 5)) as Hw.
    cbv zeta in Hw. destruct Hw as (Hw & _ & _).
    destruct (Hw {| text_heard := "hi"; sentiment := VStr "positive"; time := 0 |}
                20000000)
      as (_ & w' & Hrun & _);
      [vm_compute; reflexivity|vm_compute; reflexivity|vm_compute; intros [=]|].
    rewrite Hrun. reflexivity.
  - pose proof (get_readings_spec (H := demo_host) fresh_world) as Hw.
    cbv zeta in Hw. destruct Hw as (_ & Hw & _).
    destruct Hw as (w' & -> & _); reflexivity.
  - pose proof (get_readings_spec (H := demo_host) (heard_world 21)) as Hw.
    cbv zeta in Hw. destruct Hw as (_ & _ & Hw).
    destruct (Hw {| text_heard := "hi"; sentiment := VStr "positive"; time := 0 |}
                20000000)
      as (_ & w' & Hrun & _);
      [vm_compute; reflexivity|vm_compute; reflexivity|vm_compute; reflexivity|].
    rewrite Hrun. reflexivity.
Defined.

Lemma failed_iteration_continues_witness :
  is_Exception (exn_cls boom) = true
  ∧ listen_loop (H := demo_host) (FromDoCommand "hi" (Thrown boom)) configured_world
    = (Ok (Awaiting (AtSleep 1)),
       logged configured_world [ELog ERROR "Error in listening loop: boom"; ESleep 1])
  ∧ listen_loop (H := demo_host) (FromSleep (Value tt)) configured_world
    = (Ok (Awaiting AtListen), logged configured_world [ECallListen 1%nat]).
Proof.
  split; [reflexivity|].
  pose proof (failed_iteration_continues (H := demo_host) boom "hi" configured_world
                eq_refl) as Hw.
  cbv zeta in Hw. destruct Hw as (_ & Hw & _ & _ & Hnext).
  split; [exact Hw|].
  destruct (Hnext configured_world eq_refl) as (s & w3 & -> & _ & Hs).
  destruct (Hs 1%nat eq_refl) as [-> ->]. reflexivity.
Defined.

Lemma missing_sentiment_is_Unknown_witness :
  latest_reading
    (self (listen_loop (H := demo_host) (FromDoCommand "hi" (Value ∅))
             (listen_loop (H := demo_host) (FromListen (Value "hi")) configured_world).2).2)
  = Some {| text_heard := "hi"; sentiment := VStr "Unknown"; time := 0 |}.
Proof.
  pose proof (missing_sentiment_is_Unknown (H := demo_host) "hi" "hi" ∅
                configured_world
                (listen_loop (H := demo_host) (FromListen (Value "hi")) configured_world).2
                (listen_loop (H := demo_host) (FromListen (Value "hi")) configured_world).2)
    as Hw.
  cbv zeta in Hw.
  destruct Hw as (_ & _ & p & w' & -> & Hstored);
    [discriminate|reflexivity|reflexivity|].
  exact Hstored.
Defined.

Lemma blank_utterance_skipped_witness :
  whitespace_only "  " = true
  ∧ listen_loop (H := demo_host) (FromListen (Value "  ")) (heard_world 3)
    = (Ok (Awaiting AtListen),
       logged (heard_world 3) [ELog INFO "No speech heard"; ECallListen 1%nat]).
Proof.
  split; [reflexivity|].
  pose proof (blank_utterance_skipped (H := demo_host) "  " (heard_world 3) eq_refl) as Hw.
  cbv zeta in Hw. destruct Hw as (_ & _ & _ & Hw).
  apply Hw; reflexivity.
Defined.

Lemma listen_loop_exit_clears_flag_witness :
  is_listening (self configured_world) = true
  ∧ listen_loop (H := demo_host) (FromListen (Thrown cancelled)) configured_world
    = (Ok Returned,
       {| self := with_is_listening false (self configured_world);
          tasks := tasks configured_world;
          journal := journal configured_world ++ [ELog INFO "Listening loop cancelled"];
          ticks := ticks configured_world |})
  ∧ is_listening
      (self (listen_loop (H := demo_host) (FromSleep (Thrown boom)) configured_world).2)
    = false.
Proof.
  split; [reflexivity|]. split.
  - destruct (listen_loop_exit_clears_flag (H := demo_host)
                (FromListen (Thrown cancelled)) configured_world) as (_ & Hw & _).
    apply (Hw cancelled); reflexivity.
  - destruct (listen_loop_exit_clears_flag (H := demo_host)
                (FromSleep (Thrown boom)) configured_world) as (Hw & _).
    apply (Hw I (Ok Returned)); [reflexivity|exact I].
Defined.

Lemma reconfigure_fails_after_assigning_witness :
  (reconfigure (H := demo_host) attributes_without_sentiment first_dependencies
     fresh_world).1
  = Raise {| exn_cls := ValueError;
             exn_msg := "sentiment_service dependency is required" |}
  ∧ reading_expiration_seconds
      (self (reconfigure (H := demo_host) attributes_without_sentiment
               first_dependencies fresh_world).2) = 7
  ∧ speech_service
      (self (reconfigure (H := demo_host) attributes_without_sentiment
               first_dependencies fresh_world).2) = Some 1%nat.
Proof.
  split; [reflexivity|].
  destruct (reconfigure_fails_after_assigning (H := demo_host)
              attributes_without_sentiment first_dependencies fresh_world
              (reconfigure (H := demo_host) attributes_without_sentiment
                 first_dependencies fresh_world).2 eq_refl)
    as (Hn & (s & svc & Hname & Hdep & Hsvc) & _); [reflexivity|].
  assert (Hc : configured_expiration (H := demo_host) attributes_without_sentiment
               = Ok 7) by reflexivity.
  assert (Hmic : dict_get attributes_without_sentiment "speech_service" = VStr "mic")
    by reflexivity.
  split; [congruence|].
  rewrite Hsvc, <- Hdep. replace s with "mic" by congruence. reflexivity.
Defined.


Lemma reconfigure_missing_dependency_witness :
  ∃ e w', reconfigure (H := demo_host) attributes_without_speech
            dependencies_without_speech fresh_world = (Raise e, w')
          ∧ tasks w' = []
          ∧ is_listening (self w') = false
          ∧ listening_task (self w') = None.
Proof.
  apply (reconfigure_missing_dependency (H := demo_host) attributes_without_speech
           dependencies_without_speech fresh_world).
  left. split; reflexivity.
Defined.

(** The end-to-end scenario of the specification: the speech service returns
    "I am happy", the sentiment service answers {"sentiment": "positive"},
    and a reading within the window returns both. *)
Example end_to_end :
  ∃ w, resume_all (H := demo_host)
         [FromListen (Value "I am happy");
          FromDoCommand "I am happy" (Value {[ "sentiment" := VStr "positive" ]})]
         (Awaiting AtListen) configured_world
       = Some (Ok (Awaiting AtListen), w)
       ∧ (get_readings (H := demo_host) w).1
         = Ok {[ "text_heard" := VStr "I am happy"; "sentiment" := VStr "positive";
                 "time" := VStr "T0"; "is_listening" := VBool true ]}.
Proof. eexists. split; [vm_compute; reflexivity|]. vm_compute. reflexivity. Qed.

(** * Further properties of the component *)

Section Further.
Context `{Host}.

Ltac step :=
  unfold mbind, M_bind, mret, M_ret, raise, reraise, from_result, get_self,
    modify_self, logger_info, logger_error, emit, now, create_task,
    cancel_task in *;
  cbn [fst snd self tasks journal ticks] in *.

(** ** get_readings *)

(** When [time_heard + timedelta(seconds=...)] is a [datetime]: the window is
    one [timedelta] can hold, and the sum lies in the years 1 to 9999. *)
Lemma expiry_bound_range (c : component) (r : reading) :
  let n := reading_expiration_seconds c in
  (-86399999913600 <= n <= 86399999999999
   ∧ 0 <= time r + n * 1000000 < datetime_limit)
  ↔ expiry_bound c r = Ok (time r + n * 1000000).
Proof.
  intros n. unfold expiry_bound, timedelta_seconds, datetime_add. fold n.
  assert (Hdays : -86399999913600 <= n <= 86399999999999
                  ↔ -999999999 <= n / 86400 <= 999999999).
  { pose proof (Z.div_mod n 86400 ltac:(lia)) as Hdiv.
    pose proof (Z.mod_pos_bound n 86400 ltac:(lia)) as Hmod. lia. }
  destruct (Z.leb_spec (-999999999) (n / 86400)),
    (Z.leb_spec (n / 86400) 999999999); cbn [andb];
    try (split; [lia|discriminate]).
  destruct (Z.leb_spec 0 (time r + n * 1000000)),
    (Z.ltb_spec (time r + n * 1000000) datetime_limit); cbn [andb];
    try (split; [lia|discriminate]).
  split; [reflexivity|]. intros _. lia.
Qed.

Lemma expiry_bound_Raise (c : component) (r : reading) (e : exn) :
  expiry_bound c r = Raise e → exn_cls e = OverflowError.
Proof.
  unfold expiry_bound, timedelta_seconds, datetime_add.
  destruct (_ && _); [|by intros [= <-]].
  destruct (_ && _); [discriminate|by intros [= <-]].
Qed.

(** X1. [get_readings] raises nothing but the [OverflowError] of lines
    192-193, and that exactly when a reading is stored whose time plus the
    window is not a [datetime]: the window beyond what [timedelta] holds
    (999999999 days either way), or the sum outside the years 1 to 9999. The
    call then leaves the world as it is and reads no clock. Whenever it
    returns, its result has exactly the four keys text_heard, sentiment, time
    and is_listening. *)
Theorem get_readings_complete (w : World) :
  (∀ e w', get_readings w = (Raise e, w') →
           exn_cls e = OverflowError ∧ w' = w
           ∧ ∃ r, latest_reading (self w) = Some r ∧ expiry_bound (self w) r = Raise e)
  ∧ (∀ r, latest_reading (self w) = Some r →
          let n := reading_expiration_seconds (self w) in
          (∃ e, get_readings w = (Raise e, w))
          ↔ ¬ (-86399999913600 <= n <= 86399999999999
               ∧ 0 <= time r + n * 1000000 < datetime_limit))
  ∧ (∀ d w', get_readings w = (Ok d, w') → dom d = reading_keys).
Proof.
  assert (Hkeys : ∀ t (l : bool), dom (default_reading t l) = reading_keys).
  { intros t l. unfold default_reading, reading_keys.
    rewrite !dom_insert_L, dom_singleton_L. set_solver. }
  destruct (latest_reading (self w)) as [r|] eqn:Hr.
  - rewrite (get_readings_stored w r Hr).
    split; [|split].
    + intros e w'. destruct (expiry_bound (self w) r) as [bound|e0] eqn:Hb.
      * by destruct (_ >? _).
      * intros [= -> <-]. split; [by eapply expiry_bound_Raise|]. split; [done|].
        by exists r.
    + intros r' [= <-] n.
      pose proof (expiry_bound_range (self w) r) as Hrange. cbv zeta in Hrange.
      fold n in Hrange. rewrite Hrange.
      destruct (expiry_bound (self w) r) as [bound|e0] eqn:Hb.
      * apply expiry_bound_Ok in Hb as Hbound. fold n in Hbound. subst bound.
        split; [|done]. intros [e He]. by destruct (_ >? _).
      * split; [done|]. intros _. by exists e0.
    + intros d w'. destruct (expiry_bound (self w) r) as [bound|e0]; [|discriminate].
      destruct (_ >? _); intros [= <- _]; [apply Hkeys|].
      unfold reading_keys. rewrite !dom_insert_L, dom_singleton_L. set_solver.
  - assert (Hrun : get_readings w
                   = (Ok (default_reading (clock (ticks w)) (is_listening (self w))),
                      {| self := self w; tasks := tasks w; journal := journal w;
                         ticks := S (ticks w) |})).
    { unfold get_readings. step. by rewrite Hr. }
    rewrite Hrun. split; [|split].
    + discriminate.
    + discriminate.
    + intros d w' [= <- _]. apply Hkeys.
Qed.

Lemma get_readings_self (w : World) :
  self (get_readings w).2 = self w
  ∨ self (get_readings w).2 = with_latest_reading None (self w).
Proof.
  destruct (latest_reading (self w)) as [r|] eqn:Hr.
  - rewrite (get_readings_stored w r Hr).
    destruct (expiry_bound (self w) r); [|by left].
    destruct (_ >? _); [by right|by left].
  - unfold get_readings. step. rewrite Hr. by left.
Qed.

Lemma get_readings_world (w : World) :
  tasks (get_readings w).2 = tasks w ∧ journal (get_readings w).2 = journal w.
Proof.
  destruct (latest_reading (self w)) as [r|] eqn:Hr.
  - rewrite (get_readings_stored w r Hr).
    destruct (expiry_bound (self w) r); [|done].
    by destruct (_ >? _).
  - unfold get_readings. step. by rewrite Hr.
Qed.

(** X2. The only thing [get_readings] may change in the component is the
    stored reading, and it can only clear it: the bindings, the window, the
    task attribute and the flag are left alone, as are the tasks and the
    journal, and the call never stores a reading. *)
Theorem get_readings_frame (w : World) :
  let w' := (get_readings w).2 in
  (self w' = self w ∨ self w' = with_latest_reading None (self w))
  ∧ tasks w' = tasks w
  ∧ journal w' = journal w.
Proof.
  intros w'. split; [apply get_readings_self|apply get_readings_world].
Qed.

(** X3. A reading found expired is not served again: once a call has
    compared the clock with the bound of a stored reading (its time plus the
    window, a [datetime]) and found it later, as long as the component is not
    written to every later call returns the default reading, whatever the
    clock says then. *)
Theorem expired_reading_stays_cleared (w w2 : World) (r : reading) (bound : Z) :
  latest_reading (self w) = Some r →
  expiry_bound (self w) r = Ok bound →
  clock (ticks w) > bound →
  self w2 = self (get_readings w).2 →
  get_readings w2
  = (Ok (default_reading (clock (ticks w2)) (is_listening (self w))),
     {| self := self w2; tasks := tasks w2; journal := journal w2;
        ticks := S (ticks w2) |}).
Proof.
  intros Hr Hbound Hexp Hself.
  assert (Hcleared : self (get_readings w).2 = with_latest_reading None (self w)).
  { rewrite (get_readings_stored w r Hr), Hbound.
    destruct (Z.gtb_spec (clock (ticks w)) bound); [reflexivity|lia]. }
  rewrite Hcleared in Hself.
  destruct w2 as [c2 ts2 j2 k2]. cbn [self] in Hself. subst c2. reflexivity.
Qed.

(** X4. With a negative window a stored reading is never served once the
    clock has reached the time it was stored at: where the time plus the
    window still is a [datetime], the call clears the reading and returns the
    default reading. *)
Theorem negative_window_never_serves (w : World) (r : reading) (bound : Z) :
  latest_reading (self w) = Some r →
  reading_expiration_seconds (self w) < 0 →
  expiry_bound (self w) r = Ok bound →
  time r <= clock (ticks w) →
  (get_readings w).1
  = Ok (default_reading (clock (S (ticks w))) (is_listening (self w)))
  ∧ latest_reading (self (get_readings w).2) = None.
Proof.
  intros Hr Hneg Hbound Hclock.
  rewrite (get_readings_stored w r Hr), Hbound.
  apply expiry_bound_Ok in Hbound.
  destruct (Z.gtb_spec (clock (ticks w)) bound) as [Hgt|Hle]; [done|lia].
Qed.

(** ** _listen_loop *)

(** X5. What the loop stores is what the next reading returns: after the run
    that takes the response of the sentiment service, a [get_readings] whose
    clock is not after the bound of the reading just stored (the time of the
    store plus the window, a [datetime]) returns the text heard, the sentiment
    of the response ("Unknown" without one; any value, of any type, as it
    came), and the time of the store. *)
Theorem stored_reading_is_read (text : string) (sentiment_result : gmap string value)
    (w : World) (bound : Z) :
  let stored := {| text_heard := text;
                   sentiment := dict_get_default sentiment_result "sentiment"
                                  (VStr "Unknown");
                   time := clock (ticks w) |} in
  let w1 := (listen_loop (FromDoCommand text (Value sentiment_result)) w).2 in
  expiry_bound (self w) stored = Ok bound →
  ¬ (clock (S (ticks w)) > bound) →
  (get_readings w1).1
  = Ok {[ "text_heard" := VStr text;
          "sentiment" := dict_get_default sentiment_result "sentiment" (VStr "Unknown");
          "time" := VStr (isoformat (clock (ticks w)));
          "is_listening" := VBool (is_listening (self w)) ]}.
Proof.
  intros stored w1 Hbound Hfresh.
  assert (Hw1 : latest_reading (self w1) = Some stored
                ∧ reading_expiration_seconds (self w1) = reading_expiration_seconds (self w)
                ∧ is_listening (self w1) = is_listening (self w)
                ∧ ticks w1 = S (ticks w)).
  { unfold w1. rewrite listen_loop_classified, listen_loop_Start.
    destruct w as [[sp se n lr lt il] ts j k].
    cbn [self is_listening with_latest_reading speech_service].
    destruct il; [destruct sp|]; done. }
  destruct Hw1 as (Hr & Hn & Hl & Hk).
  rewrite (get_readings_stored w1 stored Hr).
  assert (Hb1 : expiry_bound (self w1) stored = Ok bound)
    by (unfold expiry_bound in *; by rewrite Hn).
  rewrite Hb1, Hk, Hl.
  destruct (Z.gtb_spec (clock (S (ticks w))) bound); [lia|reflexivity].
Qed.

Lemma listen_loop_fields (r : resumption) (w : World) :
  let w' := (listen_loop r w).2 in
  speech_service (self w') = speech_service (self w)
  ∧ sentiment_service (self w') = sentiment_service (self w)
  ∧ reading_expiration_seconds (self w') = reading_expiration_seconds (self w)
  ∧ listening_task (self w') = listening_task (self w)
  ∧ tasks w' = tasks w
  ∧ (is_listening (self w') = true → is_listening (self w) = true).
Proof.
  destruct w as [[sp se n lr lt il] ts j k].
  destruct r as [|[text|[cls msg]]|text [d|[cls msg]]|[[]|[cls msg]]|e];
    unfold listen_loop, guarded, while_is_listening, try_iteration, resumed,
      after_listen, after_do_command, call_listen;
    step; cbn;
    repeat (case_match; simplify_eq/=; try done);
    done.
Qed.

(** X6. A run of the loop never touches the bindings, the window, the task
    attribute or the tasks, and never sets the flag: a flag that is set after
    a run was set before it. *)
Theorem listen_loop_frame (r : resumption) (w : World) :
  let w' := (listen_loop r w).2 in
  speech_service (self w') = speech_service (self w)
  ∧ sentiment_service (self w') = sentiment_service (self w)
  ∧ reading_expiration_seconds (self w') = reading_expiration_seconds (self w)
  ∧ listening_task (self w') = listening_task (self w)
  ∧ tasks w' = tasks w
  ∧ (is_listening (self w') = true → is_listening (self w) = true).
Proof. apply listen_loop_fields. Qed.

(** X7. An exception leaves the coroutine in two cases only, and then
    always. Raised at an [await], it leaves when it is neither an [Exception]
    nor a [CancelledError] (a [KeyboardInterrupt], say): the flag is cleared
    on the way and nothing is logged. Thrown into a task that has not had its
    first run (a task cancelled before it ran), it leaves whatever its class:
    no line of the body runs and the world stays as it is. Every other run
    returns a point of the loop. *)
Theorem listen_loop_escape (r : resumption) (w : World) (e : exn) :
  let escapes := thrown_into r = Some e
                 ∧ is_Exception (exn_cls e) = false
                 ∧ is_CancelledError (exn_cls e) = false in
  let cleared := {| self := with_is_listening false (self w); tasks := tasks w;
                    journal := journal w; ticks := ticks w |} in
  (∀ w', listen_loop r w = (Raise e, w') →
         (escapes ∧ w' = cleared) ∨ (r = ThrownAtStart e ∧ w' = w))
  ∧ (escapes → listen_loop r w = (Raise e, cleared))
  ∧ (r = ThrownAtStart e → listen_loop r w = (Raise e, w)).
Proof.
  destruct w as [[sp se n lr lt il] ts j k].
  split; [|split].
  - intros w' Hrun. revert Hrun.
    destruct r as [|[text|[[] msg]]|text [d|[[] msg]]|[[]|[[] msg]]|e'];
      try (unfold listen_loop, guarded, while_is_listening, try_iteration, resumed,
             after_listen, after_do_command, call_listen;
           step; cbn; intros Hrun;
           repeat (case_match; simplify_eq/=; try done);
           simplify_eq/=; try done; left; done).
    unfold listen_loop, reraise. intros [= -> <-]. by right.
  - intros (Hthrown & Hexc & Hcancel).
    destruct r as [|[text|e']|text [d|e']|[[]|e']|e']; try discriminate;
      injection Hthrown as ->;
      unfold listen_loop, guarded, while_is_listening, try_iteration, resumed;
      step; rewrite ?Hexc, Hcancel; reflexivity.
  - by intros ->.
Qed.

(** X8. An [Exception] raised in the sleep of the handler is not retried:
    the outer handler logs it as fatal, the flag is cleared and the coroutine
    returns, the exception swallowed. *)
Theorem fault_in_handler_is_fatal (e : exn) (w : World) :
  is_Exception (exn_cls e) = true →
  listen_loop (FromSleep (Thrown e)) w
  = (Ok Returned,
     {| self := with_is_listening false (self w); tasks := tasks w;
        journal := journal w ++ [ELog ERROR ("Fatal error in listening loop: " +:+ exn_msg e)];
        ticks := ticks w |}).
Proof.
  intros Hexc.
  assert (Hcancel : is_CancelledError (exn_cls e) = false)
    by (destruct (exn_cls e); done).
  unfold listen_loop, guarded, while_is_listening, resumed. step.
  by rewrite Hcancel, Hexc.
Qed.

(** Executions compose. *)
Lemma resume_all_app (rs1 rs2 : list resumption) (p p' : loop_point) (w w' : World) :
  resume_all rs1 p w = Some (Ok p', w') →
  resume_all (rs1 ++ rs2) p w = resume_all rs2 p' w'.
Proof.
  revert p w. induction rs1 as [|r rs1 IH]; intros p w; cbn [resume_all app].
  - by intros [= -> ->].
  - destruct (resumes p r); [|discriminate].
    destruct (listen_loop r w) as [[p1|e] w1].
    + apply IH.
    + by destruct rs1.
Qed.

(** X9. Any number of iterations in a row in which the speech call raises
    an [Exception] leave the loop running, with the component as it was; an
    utterance heard after them is stored as after none. *)
Theorem loop_survives_failures (e : exn) (k : nat) (w : World) (svc : resource) :
  is_Exception (exn_cls e) = true →
  is_listening (self w) = true →
  speech_service (self w) = Some svc →
  ∃ w', resume_all (failing_iterations e k) (Awaiting AtListen) w
        = Some (Ok (Awaiting AtListen), w')
        ∧ self w' = self w ∧ tasks w' = tasks w ∧ ticks w' = ticks w
        ∧ ∀ text sentiment_result svc2,
            whitespace_only text = false →
            sentiment_service (self w) = Some svc2 →
            ∃ w'', resume_all (failing_iterations e k
                               ++ [FromListen (Value text);
                                   FromDoCommand text (Value sentiment_result)])
                     (Awaiting AtListen) w
                   = Some (Ok (Awaiting AtListen), w'')
                   ∧ latest_reading (self w'')
                     = Some {| text_heard := text;
                               sentiment := dict_get_default sentiment_result
                                              "sentiment" (VStr "Unknown");
                               time := clock (ticks w) |}.
Proof.
  intros Hexc Hl Hsvc.
  assert (Hrun : ∃ w', resume_all (failing_iterations e k) (Awaiting AtListen) w
                       = Some (Ok (Awaiting AtListen), w')
                       ∧ self w' = self w ∧ tasks w' = tasks w ∧ ticks w' = ticks w).
  { revert w Hl Hsvc. induction k as [|k IH]; intros w Hl Hsvc.
    - exists w. done.
    - cbn [failing_iterations resume_all resumes].
      destruct (iteration_fault e "" w Hexc) as [-> _].
      cbn [resumes]. rewrite listen_loop_slept, listen_loop_Start.
      cbn [logged self]. rewrite Hl, Hsvc.
      match goal with |- context [resume_all _ _ ?v] =>
        destruct (IH v) as (w' & Hw' & Hs & Ht & Hk); [done..|] end.
      exists w'. split; [exact Hw'|]. done. }
  destruct Hrun as (w' & Hw' & Hs & Ht & Hk).
  exists w'. split; [exact Hw'|]. split; [exact Hs|]. split; [exact Ht|].
  split; [exact Hk|].
  intros text sentiment_result svc2 Htext Hsvc2.
  rewrite (resume_all_app _ _ _ _ _ _ Hw').
  destruct w' as [c' ts' j' k']. cbn [self tasks ticks] in Hs, Ht, Hk.
  subst c' ts' k'.
  cbn [resume_all resumes]. rewrite listen_loop_heard, Htext.
  cbn [self]. rewrite Hsvc2.
  cbn [resumes]. rewrite String.eqb_refl.
  rewrite listen_loop_classified, listen_loop_Start.
  cbn [logged self ticks is_listening with_latest_reading speech_service].
  rewrite Hl, Hsvc.
  eexists. split; reflexivity.
Qed.

(** ** do_command *)

Lemma do_command_stop (w : World) :
  do_command {[ "command" := VStr "stop_listening" ]} w
  = (Ok {[ "status" := VStr "stopped" ]},
     {| self := with_is_listening false (self w);
        tasks := match listening_task (self w) with
                 | Some t => alter (λ _, {| cancel_requested := true |}) t (tasks w)
                 | None => tasks w
                 end;
        journal := journal w; ticks := ticks w |}).
Proof.
  destruct w as [[sp se n lr lt il] ts j k]. by destruct lt.
Qed.

Lemma do_command_start (w : World) :
  do_command {[ "command" := VStr "start_listening" ]} w
  = (start_listening;; mret {[ "status" := VStr "started" ]}) w.
Proof. reflexivity. Qed.

Lemma do_command_get_status (w : World) :
  do_command {[ "command" := VStr "get_status" ]} w
  = (Ok {[ "is_listening" := VBool (is_listening (self w));
           "has_reading" := VBool (bool_decide (latest_reading (self w) ≠ None));
           "reading_expiration_seconds" := VInt (reading_expiration_seconds (self w)) ]},
     w).
Proof. reflexivity. Qed.

(** X10. The command "stop_listening" returns {"status": "stopped"}, clears
    the flag and requests the cancellation of the task [listening_task]
    refers to, and of no other; the bindings, the window, the stored reading
    and [listening_task] itself stay. A second stop changes nothing more. *)
Theorem stop_listening_command (w : World) :
  let stop : gmap string value := {[ "command" := VStr "stop_listening" ]} in
  let w' := (do_command stop w).2 in
  (do_command stop w).1 = Ok {[ "status" := VStr "stopped" ]}
  ∧ self w' = with_is_listening false (self w)
  ∧ journal w' = journal w
  ∧ length (tasks w') = length (tasks w)
  ∧ (∀ i, listening_task (self w) ≠ Some i → tasks w' !! i = tasks w !! i)
  ∧ (∀ t, listening_task (self w) = Some t → (t < length (tasks w))%nat →
          tasks w' !! t = Some {| cancel_requested := true |})
  ∧ do_command stop w' = (Ok {[ "status" := VStr "stopped" ]}, w').
Proof.
  intros stop w'. unfold w', stop. rewrite !do_command_stop.
  cbn [fst snd self tasks journal ticks listening_task with_is_listening].
  split; [done|]. split; [done|]. split; [done|].
  destruct (listening_task (self w)) as [t|].
  - split; [apply length_alter|].
    split; [intros i Hi; apply list_lookup_alter_ne; congruence|].
    split.
    + intros t' [= <-] Hlt. rewrite list_lookup_alter_eq.
      apply lookup_lt_is_Some_2 in Hlt as [x Hx]. rewrite Hx. reflexivity.
    + f_equal. unfold with_is_listening at 1. cbn. f_equal.
      apply list_eq. intros i. destruct (decide (t = i)) as [->|Hne].
      * rewrite !list_lookup_alter_eq. by destruct (tasks w !! i).
      * by rewrite !list_lookup_alter_ne.
  - done.
Qed.

(** X11. The command "get_status" has no effect, and its has_reading tells
    whether a reading is stored, not whether it is still fresh: for a stored
    reading that [get_readings] finds expired at the same moment (the clock
    after its bound, a [datetime]), the status says true, and get_readings
    returns the default reading. *)
Theorem get_status_ignores_expiry (w : World) (r : reading) (bound : Z) :
  latest_reading (self w) = Some r →
  expiry_bound (self w) r = Ok bound →
  clock (ticks w) > bound →
  ∃ status, do_command {[ "command" := VStr "get_status" ]} w = (Ok status, w)
            ∧ status !! "has_reading" = Some (VBool true)
            ∧ (get_readings w).1
              = Ok (default_reading (clock (S (ticks w))) (is_listening (self w))).
Proof.
  intros Hr Hbound Hexp. rewrite do_command_get_status, Hr.
  eexists. split; [reflexivity|]. split; [done|].
  rewrite (get_readings_stored w r Hr), Hbound.
  destruct (Z.gtb_spec (clock (ticks w)) bound); [reflexivity|lia].
Qed.

Lemma do_command_cases (command : gmap string value) (w : World) :
  let cmd := dict_get_default command "command" (VStr "") in
  do_command command w
  = (if py_eq_str cmd "start_listening" then
       do_command {[ "command" := VStr "start_listening" ]} w
     else if py_eq_str cmd "stop_listening" then
       do_command {[ "command" := VStr "stop_listening" ]} w
     else if py_eq_str cmd "get_status" then
       do_command {[ "command" := VStr "get_status" ]} w
     else (Ok {[ "error" := VStr ("Unknown command: " +:+ py_str cmd) ]}, w)).
Proof.
  intros cmd. unfold do_command at 1. fold cmd.
  destruct (py_eq_str cmd "start_listening"); [reflexivity|].
  destruct (py_eq_str cmd "stop_listening"); [reflexivity|].
  destruct (py_eq_str cmd "get_status"); reflexivity.
Qed.

Lemma start_listening_world (w : World) :
  start_listening w
  = if is_listening (self w) then (Ok tt, w)
    else (Ok tt,
          {| self := with_listening_task (Some (length (tasks w)))
                       (with_is_listening true (self w));
             tasks := tasks w ++ [{| cancel_requested := false |}];
             journal := journal w ++
               [ELog INFO "Started listening for speech and sentiment analysis"];
             ticks := ticks w |}).
Proof.
  unfold start_listening. step. by destruct (is_listening (self w)).
Qed.

(** X12. No command raises, and no command touches the bindings, the window
    or the stored reading; no command removes a task. *)
Theorem do_command_frame (command : gmap string value) (w : World) :
  let w' := (do_command command w).2 in
  (∃ d, (do_command command w).1 = Ok d)
  ∧ speech_service (self w') = speech_service (self w)
  ∧ sentiment_service (self w') = sentiment_service (self w)
  ∧ reading_expiration_seconds (self w') = reading_expiration_seconds (self w)
  ∧ latest_reading (self w') = latest_reading (self w)
  ∧ (length (tasks w) ≤ length (tasks w'))%nat.
Proof.
  intros w'. unfold w'. rewrite do_command_cases.
  destruct (py_eq_str _ "start_listening").
  - rewrite do_command_start. step. rewrite start_listening_world.
    destruct (is_listening (self w)); cbn; rewrite ?length_app; cbn;
      repeat split; eauto; lia.
  - destruct (py_eq_str _ "stop_listening").
    + rewrite do_command_stop. cbn.
      repeat split; eauto.
      destruct (listening_task (self w)); [by rewrite length_alter|done].
    + destruct (py_eq_str _ "get_status"); cbn; repeat split; eauto.
Qed.

(** ** Stop, start and the loop together *)

Lemma listen_loop_cancelled (r : resumption) (e : exn) (w : World) :
  thrown_into r = Some e →
  is_CancelledError (exn_cls e) = true →
  listen_loop r w
  = (Ok Returned,
     {| self := with_is_listening false (self w); tasks := tasks w;
        journal := journal w ++ [ELog INFO "Listening loop cancelled"];
        ticks := ticks w |}).
Proof.
  intros Hthrown Hcancel.
  assert (Hexc : is_Exception (exn_cls e) = false)
    by (destruct (exn_cls e); done).
  destruct r as [|[text|e']|text [d|e']|[[]|e']|e']; try discriminate;
    injection Hthrown as ->;
    unfold listen_loop, guarded, while_is_listening, try_iteration, resumed;
    step; rewrite ?Hexc, Hcancel; reflexivity.
Qed.

(** X13. A start request made after a stop request, before the stopped task
    has taken its cancellation, is answered {"status": "started"} and creates
    a new task with the flag set. What follows depends on where the stopped
    task was. Suspended at an [await], it takes the [CancelledError] there,
    its [finally] clears the flag, and the new task, run after that, finds
    the flag clear and returns at once without calling the speech service: the
    component is left not listening. Not yet run, it ends without a line of
    its body run: the flag stays set, and the new task calls the speech
    service. *)
Theorem restart_before_cancellation (w : World) (r : resumption) (e : exn) :
  is_CancelledError (exn_cls e) = true →
  let w1 := (do_command {[ "command" := VStr "stop_listening" ]} w).2 in
  let w2 := (do_command {[ "command" := VStr "start_listening" ]} w1).2 in
  ((do_command {[ "command" := VStr "start_listening" ]} w1).1
   = Ok {[ "status" := VStr "started" ]}
   ∧ is_listening (self w2) = true
   ∧ listening_task (self w2) = Some (length (tasks w))
   ∧ tasks w2 !! length (tasks w) = Some {| cancel_requested := false |})
  ∧ (thrown_into r = Some e →
     let w3 := (listen_loop r w2).2 in
     is_listening (self w3) = false
     ∧ listen_loop Start w3 = (Ok Returned, w3))
  ∧ (listen_loop (ThrownAtStart e) w2 = (Raise e, w2)
     ∧ ∀ svc, speech_service (self w) = Some svc →
              listen_loop Start w2
              = (Ok (Awaiting AtListen), logged w2 [ECallListen svc])).
Proof.
  intros Hcancel w1 w2.
  assert (Hw1 : is_listening (self w1) = false ∧ length (tasks w1) = length (tasks w)
                ∧ speech_service (self w1) = speech_service (self w)).
  { unfold w1. rewrite do_command_stop. cbn. split; [done|]. split; [|done].
    destruct (listening_task (self w)); [apply length_alter|done]. }
  destruct Hw1 as (Hoff & Hlen & Hsp).
  assert (Hw2 : do_command {[ "command" := VStr "start_listening" ]} w1
                = (Ok {[ "status" := VStr "started" ]},
                   {| self := with_listening_task (Some (length (tasks w1)))
                                (with_is_listening true (self w1));
                      tasks := tasks w1 ++ [{| cancel_requested := false |}];
                      journal := journal w1 ++
                        [ELog INFO "Started listening for speech and sentiment analysis"];
                      ticks := ticks w1 |})).
  { rewrite do_command_start. step. by rewrite start_listening_world, Hoff. }
  unfold w2. rewrite Hw2. cbn [fst snd].
  split; [|split].
  - cbn [self tasks]. split; [done|]. split; [done|]. split; [by rewrite Hlen|].
    rewrite <- Hlen. by apply list_lookup_middle.
  - intros Hthrown. cbv zeta.
    rewrite (listen_loop_cancelled r e _ Hthrown Hcancel).
    cbn [self tasks journal ticks fst snd]. split; [done|].
    rewrite listen_loop_Start. reflexivity.
  - split; [reflexivity|].
    intros svc Hsvc. rewrite listen_loop_Start.
    cbn [self is_listening speech_service with_listening_task with_is_listening].
    by rewrite Hsp, Hsvc.
Qed.

(** X14. A start request on a component that has no speech service bound is
    not refused. The loop it starts then calls nothing: its first run, and
    every run after a sleep, logs the failed attribute access and sleeps
    again, for as long as the flag stays set. *)
Theorem start_without_speech_service (w : World) (k : nat) :
  speech_service (self w) = None →
  is_listening (self w) = false →
  let retry := [ELog ERROR "Error in listening loop: 'NoneType' object has no attribute 'listen'";
                ESleep 1] in
  let w1 := (do_command {[ "command" := VStr "start_listening" ]} w).2 in
  (do_command {[ "command" := VStr "start_listening" ]} w).1
  = Ok {[ "status" := VStr "started" ]}
  ∧ listen_loop Start w1 = (Ok (Awaiting (AtSleep 1)), logged w1 retry)
  ∧ resume_all (replicate k (FromSleep (Value tt))) (Awaiting (AtSleep 1)) (logged w1 retry)
    = Some (Ok (Awaiting (AtSleep 1)),
            logged w1 (retry ++ concat (replicate k retry))).
Proof.
  intros Hsp Hoff retry w1.
  assert (Hw1 : do_command {[ "command" := VStr "start_listening" ]} w
                = (Ok {[ "status" := VStr "started" ]},
                   {| self := with_listening_task (Some (length (tasks w)))
                                (with_is_listening true (self w));
                      tasks := tasks w ++ [{| cancel_requested := false |}];
                      journal := journal w ++
                        [ELog INFO "Started listening for speech and sentiment analysis"];
                      ticks := ticks w |})).
  { rewrite do_command_start. step. by rewrite start_listening_world, Hoff. }
  assert (Hl1 : is_listening (self w1) = true) by (unfold w1; by rewrite Hw1).
  assert (Hs1 : speech_service (self w1) = None) by (unfold w1; by rewrite Hw1).
  split; [by rewrite Hw1|].
  clearbody w1. clear Hw1.
  assert (Hretry : ∀ es, listen_loop Start (logged w1 es)
                         = (Ok (Awaiting (AtSleep 1)), logged w1 (es ++ retry))).
  { intros es. rewrite listen_loop_Start. cbn [logged self]. rewrite Hl1, Hs1.
    unfold logged. cbn [self tasks journal ticks]. by rewrite <- app_assoc. }
  split.
  - by rewrite listen_loop_Start, Hl1, Hs1.
  - generalize retry at 1 2 as es. induction k as [|k IH]; intros es.
    + cbn [replicate resume_all concat]. by rewrite app_nil_r.
    + cbn [replicate resume_all resumes concat].
      rewrite listen_loop_slept, Hretry, IH. by rewrite <- app_assoc.
Qed.

(** ** close *)

(** X15. [close] does to the component what the command "stop_listening"
    does, and then waits for the task there is. Of what the wait raises, only
    a [CancelledError] is swallowed; any other exception leaves [close]. The
    wait changes nothing. *)
Theorem close_stops (w : World) :
  close_start w
  = (Ok (listening_task (self w)),
     (do_command {[ "command" := VStr "stop_listening" ]} w).2)
  ∧ (∀ o w0, (close_resume o w0).2 = w0)
  ∧ (∀ o w0 e, (close_resume o w0).1 = Raise e
               ↔ o = Thrown e ∧ is_CancelledError (exn_cls e) = false).
Proof.
  split; [|split].
  - rewrite do_command_stop. destruct w as [[sp se n lr lt il] ts j k].
    by destruct lt.
  - intros [[]|e] w0; cbn; [done|]. by destruct (is_CancelledError (exn_cls e)).
  - intros [[]|e'] w0 e; cbn.
    + split; [discriminate|]. by intros [? _].
    + destruct (is_CancelledError (exn_cls e')) eqn:Hc; cbn.
      * split; [discriminate|]. intros [[= ->] Hn]. congruence.
      * split; [by intros [= ->]|]. by intros [[= ->] _].
Qed.

(** ** An invariant of the component *)

(** X16. Every operation keeps the flag, the task attribute and the tasks
    consistent: [listening_task] always refers to a task that exists, and a
    component whose flag is set has a task. The freshly constructed component
    is consistent. *)
Theorem consistent_invariant (w : World) :
  consistent fresh_world
  ∧ (consistent w →
     (∀ command, consistent (do_command command w).2)
     ∧ (∀ attributes dependencies, consistent (reconfigure attributes dependencies w).2)
     ∧ consistent (get_readings w).2
     ∧ (∀ r, consistent (listen_loop r w).2)
     ∧ consistent (close_start w).2).
Proof.
  split; [split; [intros t [=]|intros [=]]|].
  intros [Htask Hflag].
  assert (Hstop : consistent (do_command {[ "command" := VStr "stop_listening" ]} w).2).
  { rewrite do_command_stop. split; cbn.
    - intros t Ht. specialize (Htask t Ht).
      destruct (listening_task (self w)); [by rewrite length_alter|done].
    - discriminate. }
  split; [|split; [|split; [|split]]].
  - intros command. rewrite do_command_cases.
    destruct (py_eq_str _ "start_listening").
    + rewrite do_command_start. step. rewrite start_listening_world.
      destruct (is_listening (self w)) eqn:Hl; cbn [fst snd];
        [split; [exact Htask|intros _; by apply Hflag]|].
      split; cbn.
      * intros t [= <-]. rewrite length_app. cbn. lia.
      * done.
    + destruct (py_eq_str _ "stop_listening"); [exact Hstop|].
      destruct (py_eq_str _ "get_status"); cbn [fst snd];
        (split; [exact Htask|exact Hflag]).
  - intros attributes dependencies.
    destruct (reconfigure attributes dependencies w) as [r w'] eqn:Hrun.
    destruct (reconfigure_loop _ _ _ _ _ Hrun)
      as [(Ht & Hl & Hk & _)|(_ & _ & Ht & Hl & Hk)]; cbn [snd].
    + split; [rewrite Hk, Ht; exact Htask|rewrite Hl, Hk; exact Hflag].
    + split; [|by rewrite Hk].
      rewrite Hk, Ht. intros t [= <-]. rewrite length_app. cbn. lia.
  - destruct (get_readings_world w) as [Ht _].
    destruct (get_readings_self w) as [Hs|Hs]; (split; [rewrite Hs, Ht|rewrite Hs]);
      done.
  - intros r. destruct (listen_loop_fields r w) as (_ & _ & _ & Hk & Ht & Hl).
    split; [rewrite Hk, Ht; exact Htask|].
    intros Hon. rewrite Hk. by apply Hflag, Hl.
  - destruct (close_start w) as [res w'] eqn:Hclose.
    assert (Hw' : w' = (do_command {[ "command" := VStr "stop_listening" ]} w).2).
    { rewrite do_command_stop. revert Hclose.
      destruct w as [[sp se n lr lt il] ts j k]. destruct lt; by intros [= _ <-]. }
    cbn [snd]. rewrite Hw'. exact Hstop.
Qed.

(** ** reconfigure and validate_config *)

Ltac reconfigure_cases :=
  unfold reconfigure, start_listening, get_resource_name, dependency,
    configured_expiration in *;
  step.

Lemma reconfigure_fields (attributes : gmap string value)
    (dependencies : gmap (string * string) resource) (w : World) :
  let w' := (reconfigure attributes dependencies w).2 in
  latest_reading (self w') = latest_reading (self w)
  ∧ ticks w' = ticks w
  ∧ reading_expiration_seconds (self w')
    = match configured_expiration attributes with
      | Ok n => n
      | Raise _ => reading_expiration_seconds (self w)
      end.
Proof.
  destruct w as [[sp se n lr lt il] ts j k].
  unfold reconfigure, configured_expiration. cbv zeta.
  generalize (dict_get attributes "speech_service") as name1.
  generalize (dict_get attributes "sentiment_service") as name2.
  intros name2 name1.
  unfold get_resource_name, dependency, start_listening. step.
  destruct (dict_get attributes "reading_expiration_seconds");
    try (destruct (py_int _) as [m|e]; [|done]);
    (destruct (py_truthy name1); [destruct SpeechService_imported; [destruct name1|]|];
     try done; cbn;
     try (destruct (dependencies !! _); [|done]; cbn);
     (destruct (py_truthy name2); [destruct name2|]; try done; cbn;
      try (destruct (dependencies !! _); [|done]; cbn));
     try (destruct sp; try done); try (destruct se; try done); cbn;
     try (destruct il; done)).
Qed.

(** X17. A reconfiguration never touches the stored reading and takes no
    reading of the clock: a reading heard through the services of before is
    still served after the bindings have changed. *)
Theorem reconfigure_keeps_reading (attributes : gmap string value)
    (dependencies : gmap (string * string) resource) (w : World) :
  let w' := (reconfigure attributes dependencies w).2 in
  latest_reading (self w') = latest_reading (self w) ∧ ticks w' = ticks w.
Proof.
  intros w'. destruct (reconfigure_fields attributes dependencies w) as (Hl & Ht & _).
  by split.
Qed.

(** X18. A configuration without reading_expiration_seconds does not keep
    the window of before: whatever the outcome of the reconfiguration, the
    window is 20 afterwards. *)
Theorem reconfigure_resets_window (attributes : gmap string value)
    (dependencies : gmap (string * string) resource) (w : World) :
  attributes !! "reading_expiration_seconds" = None →
  reading_expiration_seconds (self (reconfigure attributes dependencies w).2) = 20.
Proof.
  intros Hnone.
  destruct (reconfigure_fields attributes dependencies w) as (_ & _ & ->).
  unfold configured_expiration, dict_get. by rewrite Hnone.
Qed.

(** X19. A reading_expiration_seconds that [int] refuses makes
    [reconfigure] raise that error before anything is assigned: the world is
    left exactly as it was. *)
Theorem reconfigure_rejects_window (attributes : gmap string value)
    (dependencies : gmap (string * string) resource) (w : World) (e : exn) :
  configured_expiration attributes = Raise e →
  reconfigure attributes dependencies w = (Raise e, w).
Proof.
  intros Hraise. reconfigure_cases.
  destruct (dict_get attributes "reading_expiration_seconds");
    try discriminate; by rewrite Hraise.
Qed.

(** X20. With both names given as non-empty strings and found among the
    dependencies, the import of the speech API successful and the window
    acceptable, [reconfigure] returns: both dependencies are bound, the window
    is assigned and the component listens. The loop's next run from the test
    of the [while] calls the speech service just bound. *)
Theorem reconfigure_succeeds (attributes : gmap string value)
    (dependencies : gmap (string * string) resource) (w : World)
    (speech_name sentiment_name : string) (speech sentiment : resource) (n : Z) :
  SpeechService_imported = true →
  attributes !! "speech_service" = Some (VStr speech_name) →
  attributes !! "sentiment_service" = Some (VStr sentiment_name) →
  speech_name ≠ "" →
  sentiment_name ≠ "" →
  dependencies !! ("speech", speech_name) = Some speech →
  dependencies !! ("generic", sentiment_name) = Some sentiment →
  configured_expiration attributes = Ok n →
  ∃ w', reconfigure attributes dependencies w = (Ok tt, w')
        ∧ speech_service (self w') = Some speech
        ∧ sentiment_service (self w') = Some sentiment
        ∧ reading_expiration_seconds (self w') = n
        ∧ is_listening (self w') = true
        ∧ listen_loop Start w' = (Ok (Awaiting AtListen), logged w' [ECallListen speech]).
Proof.
  intros Himp Hsp Hse Hn1 Hn2 Hd1 Hd2 Hwin.
  apply String.eqb_neq in Hn1, Hn2.
  assert (Hrun : ∃ w', reconfigure attributes dependencies w = (Ok tt, w')
                       ∧ speech_service (self w') = Some speech
                       ∧ sentiment_service (self w') = Some sentiment
                       ∧ reading_expiration_seconds (self w') = n
                       ∧ is_listening (self w') = true).
  { assert (Hname1 : dict_get attributes "speech_service" = VStr speech_name)
      by (unfold dict_get; by rewrite Hsp).
    assert (Hname2 : dict_get attributes "sentiment_service" = VStr sentiment_name)
      by (unfold dict_get; by rewrite Hse).
    unfold configured_expiration in Hwin.
    unfold reconfigure. cbv zeta. rewrite Hname1, Hname2. cbn [py_truthy].
    rewrite Hn1, Hn2, Himp. cbn [negb].
    unfold get_resource_name, dependency, start_listening. step.
    rewrite Hd1, Hd2.
    destruct w as [[sp se n0 lr lt il] ts j k].
    destruct (dict_get attributes "reading_expiration_seconds");
      try rewrite Hwin; simplify_eq; cbn; destruct il; cbn; eauto 10. }
  destruct Hrun as (w' & Hrun & Hs1 & Hs2 & Hn & Hl).
  exists w'. repeat (split; [done|]).
  by rewrite listen_loop_Start, Hl, Hs1.
Qed.

(** X21. When the speech API could not be imported, a configuration that
    names a speech service makes [reconfigure] raise [ImportError]; by then
    the window has been assigned, and nothing else has changed. *)
Theorem reconfigure_without_speech_api (attributes : gmap string value)
    (dependencies : gmap (string * string) resource) (w : World) (n : Z) :
  SpeechService_imported = false →
  py_truthy (dict_get attributes "speech_service") = true →
  configured_expiration attributes = Ok n →
  ∃ msg, reconfigure attributes dependencies w
         = (Raise {| exn_cls := ImportError; exn_msg := msg |},
            {| self := with_reading_expiration_seconds n (self w);
               tasks := tasks w; journal := journal w; ticks := ticks w |}).
Proof.
  intros Himp Hname Hwin.
  unfold configured_expiration in Hwin.
  unfold reconfigure. cbv zeta. rewrite Hname, Himp. step.
  destruct (dict_get attributes "reading_expiration_seconds");
    try rewrite Hwin; simplify_eq; cbn; eauto.
Qed.

(** X22. [validate_config] lists as required dependencies the names the
    configuration gives, speech first, and leaves out what is absent or empty;
    it has no optional dependencies. Whenever [reconfigure] returns on a
    freshly constructed component, both names were given, so
    [validate_config] lists the two. *)
Theorem validate_config_lists_names (attributes : gmap string value) :
  Forall (λ v, py_truthy v = true) (validate_config attributes).1
  ∧ (validate_config attributes).2 = []
  ∧ ∀ dependencies w w',
      self w = init →
      reconfigure attributes dependencies w = (Ok tt, w') →
      validate_config attributes
      = ([dict_get attributes "speech_service";
          dict_get attributes "sentiment_service"], []).
Proof.
  unfold validate_config. split; [|split].
  - cbn [fst].
    destruct (py_truthy (dict_get attributes "speech_service")) eqn:E1,
      (py_truthy (dict_get attributes "sentiment_service")) eqn:E2;
      cbn [app]; repeat constructor; done.
  - done.
  - intros dependencies w w' Hfresh Hrun.
    destruct (reconfigure_Ok_inv _ _ _ _ Hrun) as (Hsp & Hse & Hsp' & Hse' & _).
    rewrite Hsp in Hsp'. rewrite Hse in Hse'. rewrite Hfresh in Hsp', Hse'.
    unfold requested_binding in Hsp', Hse'. cbn [speech_service sentiment_service init] in *.
    destruct (py_truthy (dict_get attributes "speech_service")); [|done].
    destruct (py_truthy (dict_get attributes "sentiment_service")); [|done].
    reflexivity.
Qed.

End Further.

(** * The further properties at concrete inputs *)

Lemma expired_reading_stays_cleared_witness :
  expiry_bound (self (heard_world 21))
    {| text_heard := "hi"; sentiment := VStr "positive"; time := 0 |} = Ok 20000000
  ∧ @clock demo_host (ticks (heard_world 21)) > 20000000
  ∧ (get_readings (H := demo_host)
       (get_readings (H := demo_host) (heard_world 21)).2).1
    = Ok (default_reading (H := demo_host) (@clock demo_host 23) true).
Proof.
  split; [vm_compute; reflexivity|]. split; [vm_compute; reflexivity|].
  rewrite (expired_reading_stays_cleared (H := demo_host) (heard_world 21)
             (get_readings (H := demo_host) (heard_world 21)).2
             {| text_heard := "hi"; sentiment := VStr "positive"; time := 0 |}
             20000000);
    [vm_compute; reflexivity|vm_compute; reflexivity|vm_compute; reflexivity|
     vm_compute; reflexivity|reflexivity].
Defined.

Lemma negative_window_never_serves_witness :
  reading_expiration_seconds (self impatient_world) < 0
  ∧ (get_readings (H := demo_host) impatient_world).1
    = Ok (default_reading (H := demo_host) (@clock demo_host 61) false)
  ∧ latest_reading (self (get_readings (H := demo_host) impatient_world).2) = None.
Proof.
  split; [reflexivity|].
  apply (negative_window_never_serves (H := demo_host) impatient_world
           {| text_heard := "hi"; sentiment := VStr "positive"; time := 60000000 |}
           55000000);
    [reflexivity|reflexivity|vm_compute; reflexivity|vm_compute; discriminate].
Defined.

Lemma stored_reading_is_read_witness :
  (get_readings (H := demo_host)
     (listen_loop (H := demo_host)
        (FromDoCommand "hi" (Value {[ "sentiment" := VStr "positive" ]}))
        configured_world).2).1
  = Ok {[ "text_heard" := VStr "hi"; "sentiment" := VStr "positive";
          "time" := VStr "T0"; "is_listening" := VBool true ]}.
Proof.
  pose proof (stored_reading_is_read (H := demo_host) "hi"
                {[ "sentiment" := VStr "positive" ]} configured_world 20000000) as Hw.
  cbv zeta in Hw. rewrite Hw;
    [vm_compute; reflexivity|vm_compute; reflexivity|vm_compute; discriminate].
Defined.

Lemma listen_loop_frame_witness :
  is_listening (self configured_world) = true
  ∧ tasks (listen_loop (H := demo_host) (FromSleep (Value tt)) configured_world).2
    = tasks configured_world.
Proof.
  destruct (listen_loop_frame (H := demo_host) (FromSleep (Value tt)) configured_world)
    as (_ & _ & _ & _ & Htasks & Hflag).
  split; [apply Hflag; reflexivity|exact Htasks].
Defined.

Lemma listen_loop_escape_witness :
  listen_loop (H := demo_host) (FromListen (Thrown interrupt)) configured_world
  = (Raise interrupt,
     {| self := with_is_listening false (self configured_world);
        tasks := tasks configured_world; journal := journal configured_world;
        ticks := ticks configured_world |}).
Proof.
  pose proof (listen_loop_escape (H := demo_host) (FromListen (Thrown interrupt))
                configured_world interrupt) as Hw.
  cbv zeta in Hw. destruct Hw as (_ & Hw & _).
  apply Hw. repeat split.
Defined.

Lemma fault_in_handler_is_fatal_witness :
  listen_loop (H := demo_host) (FromSleep (Thrown boom)) configured_world
  = (Ok Returned,
     {| self := with_is_listening false (self configured_world);
        tasks := tasks configured_world;
        journal := journal configured_world
                   ++ [ELog ERROR "Fatal error in listening loop: boom"];
        ticks := ticks configured_world |}).
Proof.
  apply (fault_in_handler_is_fatal (H := demo_host) boom configured_world).
  reflexivity.
Defined.

Lemma loop_survives_failures_witness :
  ∃ w', resume_all (H := demo_host) (failing_iterations boom 3) (Awaiting AtListen)
          configured_world
        = Some (Ok (Awaiting AtListen), w')
        ∧ self w' = self configured_world.
Proof.
  destruct (loop_survives_failures (H := demo_host) boom 3 configured_world 1%nat)
    as (w' & Hrun & Hself & _); [reflexivity..|].
  exists w'. by split.
Defined.

Lemma stop_listening_command_witness :
  listening_task (self configured_world) = Some 0%nat
  ∧ tasks (do_command (H := demo_host) {[ "command" := VStr "stop_listening" ]}
             configured_world).2 !! 0%nat
    = Some {| cancel_requested := true |}.
Proof.
  split; [reflexivity|].
  pose proof (stop_listening_command (H := demo_host) configured_world) as Hw.
  cbv zeta in Hw. destruct Hw as (_ & _ & _ & _ & _ & Hw & _).
  apply Hw; [reflexivity|vm_compute; lia].
Defined.

Lemma get_status_ignores_expiry_witness :
  ∃ status, do_command (H := demo_host) {[ "command" := VStr "get_status" ]}
              (heard_world 21) = (Ok status, heard_world 21)
            ∧ status !! "has_reading" = Some (VBool true)
            ∧ (get_readings (H := demo_host) (heard_world 21)).1
              = Ok (default_reading (H := demo_host) (@clock demo_host 22) true).
Proof.
  apply (get_status_ignores_expiry (H := demo_host) (heard_world 21)
           {| text_heard := "hi"; sentiment := VStr "positive"; time := 0 |} 20000000);
    vm_compute; reflexivity.
Defined.

Lemma restart_before_cancellation_witness :
  is_listening
    (self (listen_loop (H := demo_host) (FromListen (Thrown cancelled))
             (do_command (H := demo_host) {[ "command" := VStr "start_listening" ]}
                (do_command (H := demo_host) {[ "command" := VStr "stop_listening" ]}
                   configured_world).2).2).2)
  = false
  ∧ listen_loop (H := demo_host) (ThrownAtStart cancelled)
      (do_command (H := demo_host) {[ "command" := VStr "start_listening" ]}
         (do_command (H := demo_host) {[ "command" := VStr "stop_listening" ]}
            configured_world).2).2
    = (Raise cancelled,
       (do_command (H := demo_host) {[ "command" := VStr "start_listening" ]}
          (do_command (H := demo_host) {[ "command" := VStr "stop_listening" ]}
             configured_world).2).2).
Proof.
  pose proof (restart_before_cancellation (H := demo_host) configured_world
                (FromListen (Thrown cancelled)) cancelled eq_refl) as Hw.
  cbv zeta in Hw. destruct Hw as (_ & Hawait & Hstart & _).
  split.
  - destruct (Hawait eq_refl) as [Hoff _]. exact Hoff.
  - exact Hstart.
Defined.

Lemma start_without_speech_service_witness :
  (do_command (H := demo_host) {[ "command" := VStr "start_listening" ]} fresh_world).1
  = Ok {[ "status" := VStr "started" ]}
  ∧ (listen_loop (H := demo_host) Start
       (do_command (H := demo_host) {[ "command" := VStr "start_listening" ]}
          fresh_world).2).1
    = Ok (Awaiting (AtSleep 1)).
Proof.
  pose proof (start_without_speech_service (H := demo_host) fresh_world 2
                eq_refl eq_refl) as Hw.
  cbv zeta in Hw. destruct Hw as (Hstart & Hloop & _).
  split; [exact Hstart|]. by rewrite Hloop.
Defined.

Lemma close_stops_witness :
  (close_resume (Thrown boom) stopped_world).1 = Raise boom
  ∧ (close_resume (Thrown cancelled) stopped_world).1 = Ok tt.
Proof.
  destruct (close_stops (H := demo_host) stopped_world) as (_ & _ & Hw).
  split; [|reflexivity].
  apply Hw. by split.
Defined.

Lemma consistent_invariant_witness :
  consistent
    (do_command (H := demo_host) {[ "command" := VStr "start_listening" ]}
       fresh_world).2.
Proof.
  destruct (consistent_invariant (H := demo_host) fresh_world) as [Hfresh Hkeep].
  destruct (Hkeep Hfresh) as (Hcommand & _). apply Hcommand.
Defined.

Lemma reconfigure_resets_window_witness :
  reading_expiration_seconds (self impatient_world) = -5
  ∧ reading_expiration_seconds
      (self (reconfigure (H := demo_host) first_attributes first_dependencies
               impatient_world).2) = 20.
Proof.
  split; [reflexivity|].
  apply (reconfigure_resets_window (H := demo_host) first_attributes
           first_dependencies impatient_world).
  reflexivity.
Defined.

Lemma reconfigure_rejects_window_witness :
  reconfigure (H := demo_host) attributes_with_bad_window first_dependencies
    configured_world
  = (Raise {| exn_cls := ValueError;
              exn_msg := "invalid literal for int() with base 10: soon" |},
     configured_world).
Proof.
  apply (reconfigure_rejects_window (H := demo_host) attributes_with_bad_window
           first_dependencies configured_world).
  reflexivity.
Defined.

Lemma reconfigure_succeeds_witness :
  ∃ w', reconfigure (H := demo_host) first_attributes first_dependencies fresh_world
        = (Ok tt, w')
        ∧ speech_service (self w') = Some 1%nat
        ∧ is_listening (self w') = true.
Proof.
  destruct (reconfigure_succeeds (H := demo_host) first_attributes first_dependencies
              fresh_world "mic" "mood" 1%nat 2%nat 20)
    as (w' & Hrun & Hspeech & _ & _ & Hl & _);
    [reflexivity|reflexivity|reflexivity|discriminate|discriminate|
     reflexivity|reflexivity|reflexivity|].
  exists w'. by repeat split.
Defined.

Lemma reconfigure_without_speech_api_witness :
  ∃ msg, (reconfigure (H := offline_host) first_attributes first_dependencies
            fresh_world).1
         = Raise {| exn_cls := ImportError; exn_msg := msg |}.
Proof.
  destruct (reconfigure_without_speech_api (H := offline_host) first_attributes
              first_dependencies fresh_world 20) as [msg Hrun];
    [reflexivity|reflexivity|reflexivity|].
  exists msg. by rewrite Hrun.
Defined.

Lemma validate_config_lists_names_witness :
  validate_config first_attributes = ([VStr "mic"; VStr "mood"], []).
Proof.
  destruct (validate_config_lists_names (H := demo_host) first_attributes)
    as (_ & _ & Hw).
  rewrite (Hw first_dependencies fresh_world configured_world); reflexivity.
Defined.
